(** * SleepSync: the schedule deriver of PediatricSleepApp.tsx

    A shallow embedding of the time helpers, the age-band table, the nap log
    and the two variants of [scheduleData] found in the source, followed by
    the properties stated about them.

    Numbers.  The program computes on JavaScript numbers.  Every number that
    reaches a comparison or a time string is an integer or [NaN], so a number
    is modelled by [num]; the fractions that occur inside [Math.round] are
    computed exactly in [Q], and the hours shown in the texts are counted in
    tenths.  For integer ages the exact value is never close enough to a
    rounding boundary for double precision to round differently.

    State.  [scheduleData] pushes to two arrays and updates three locals; the
    model threads them through its phases as a record [Locals].  The nap log
    of the component ([naps], [napStart], [napEnd]) is the record [NapLog],
    and the clock read by [addNap] is an argument. *)

From Stdlib Require Import ZArith List String Ascii Bool Lia.
From Stdlib Require Import QArith Qround DecimalString.
From Stdlib Require Import Sorting.Sorted Sorting.Permutation.
Import ListNotations.

Local Open Scope string_scope.
Local Open Scope Z_scope.

(** ** JavaScript primitives used by the program *)

Module JS.

(** A JavaScript number that is either an integer or [NaN]. *)
Inductive num : Set :=
| Int (z : Z)
| NaN.

Definition add (a b : num) : num :=
  match a, b with
  | Int x, Int y => Int (x + y)
  | _, _ => NaN
  end.

Definition sub (a b : num) : num :=
  match a, b with
  | Int x, Int y => Int (x - y)
  | _, _ => NaN
  end.

Definition mul (a b : num) : num :=
  match a, b with
  | Int x, Int y => Int (x * y)
  | _, _ => NaN
  end.

(** Comparisons: every comparison with [NaN] is false. *)
Definition ltb (a b : num) : bool :=
  match a, b with
  | Int x, Int y => x <? y
  | _, _ => false
  end.

Definition gtb (a b : num) : bool := ltb b a.

Definition geb (a b : num) : bool :=
  match a, b with
  | Int x, Int y => y <=? x
  | _, _ => false
  end.

(** [Math.max] and [Math.min]: [NaN] as soon as one argument is. *)
Definition max (a b : num) : num :=
  match a, b with
  | Int x, Int y => Int (Z.max x y)
  | _, _ => NaN
  end.

Definition min (a b : num) : num :=
  match a, b with
  | Int x, Int y => Int (Z.min x y)
  | _, _ => NaN
  end.

(** [Math.floor (a / d)] for an integer constant [d]. *)
Definition floor_div (a : num) (d : Z) : num :=
  match a with
  | Int x => Int (x / d)
  | NaN => NaN
  end.

(** [Math.floor (a % d)]: the remainder of [%] has the sign of the dividend. *)
Definition floor_rem (a : num) (d : Z) : num :=
  match a with
  | Int x => Int (Z.rem x d)
  | NaN => NaN
  end.

(** [Math.round]: the nearest integer, halves going up. *)
Definition round (q : Q) : Z := Qfloor (q + (1 # 2)).

(** [Number.prototype.toString] on an integer or [NaN]. *)
Definition toString (a : num) : string :=
  match a with
  | Int x => NilZero.string_of_int (Z.to_int x)
  | NaN => "NaN"
  end.

(** A number with one decimal place, given in tenths: [13] prints as [1.3],
    [20] as [2]. *)
Definition tenthsToString (t : Z) : string :=
  let sign := if t <? 0 then "-" else "" in
  let a := Z.abs t in
  if Z.rem a 10 =? 0 then toString (Int (t / 10))
  else sign ++ toString (Int (a / 10)) ++ "." ++ toString (Int (Z.rem a 10)).

Fixpoint repeatChar (c : ascii) (n : nat) : string :=
  match n with
  | O => ""
  | S k => String c (repeatChar c k)
  end.

(** [s.padStart (target, c)] for a one-character filler. *)
Definition padStart (target : nat) (c : ascii) (s : string) : string :=
  repeatChar c (target - String.length s) ++ s.

(** [s.split (sep)] for a one-character separator: always at least one
    field. *)
Fixpoint split (sep : ascii) (s : string) : list string :=
  match s with
  | EmptyString => [""]
  | String c r =>
      if Ascii.eqb c sep then "" :: split sep r
      else match split sep r with
           | f :: fs => String c f :: fs
           | [] => [String c ""]
           end
  end.

Definition isDigit (c : ascii) : bool :=
  let n := nat_of_ascii c in (48 <=? n)%nat && (n <=? 57)%nat.

Fixpoint digitsValue (acc : Z) (s : string) : num :=
  match s with
  | EmptyString => Int acc
  | String c r =>
      if isDigit c
      then digitsValue (10 * acc + (Z.of_nat (nat_of_ascii c) - 48)) r
      else NaN
  end.

(** [Number (s)] on the strings the program meets: the empty string is [0],
    a run of decimal digits with an optional sign is that integer, anything
    else is read as [NaN].  (JavaScript also accepts blanks around the
    literal, fractions, exponents, radix prefixes and [Infinity]; the fields
    of a time-of-day string never have these.) *)
Definition Number (s : string) : num :=
  match s with
  | EmptyString => Int 0
  | String c r =>
      if Ascii.eqb c "-" then
        match r with
        | EmptyString => NaN
        | _ => sub (Int 0) (digitsValue 0 r)
        end
      else if Ascii.eqb c "+" then
        match r with
        | EmptyString => NaN
        | _ => digitsValue 0 r
        end
      else digitsValue 0 s
  end.

(** [hay.includes (needle)]. *)
Fixpoint includes (needle hay : string) : bool :=
  String.prefix needle hay ||
  match hay with
  | EmptyString => false
  | String _ r => includes needle r
  end.

End JS.

Import JS.

(** ** Types and interfaces *)

Inductive Mode : Set := window | hybrid | clock.

Definition Mode_eqb (a b : Mode) : bool :=
  match a, b with
  | window, window | hybrid, hybrid | clock, clock => true
  | _, _ => false
  end.

Record SleepStandard : Set := {
  minWake : Z;
  maxWake : Z;
  naps : Z;
  label : string;
  mode : Mode;
  bedtimeWindow : Z;
  description : string;
  rangeStart : Z;
  rangeEnd : Z;
  tooLongNapMinutes : Z;
  latestNapEndTime : string;
  idealBedtime : string
}.

Record NapEntry : Set := {
  id : string;
  startTime : string;
  endTime : string;
  duration : num
}.

Inductive EventType : Set := wake | nap | bedtime.

Inductive AlertLevel : Set := normal | warning | critical.

Record PlannedEvent : Set := {
  type : EventType;
  evStart : string;
  evEnd : option string;
  title : string;
  evDescription : string;
  reasoning : string;
  isPrediction : bool;
  alertLevel : option AlertLevel
}.

(** ** Helper functions (the same in both variants) *)

Definition timeToMinutes (time : string) : num :=
  if String.eqb time "" then Int 0
  else match map Number (split ":" time) with
       | h :: m :: _ => add (mul h (Int 60)) m
       | _ => NaN
       end.

Definition minutesToTime (minutes : num) : string :=
  let h := floor_div minutes 60 in
  let m := floor_rem minutes 60 in
  let h := if geb h (Int 24) then sub h (Int 24) else h in
  let h := if ltb h (Int 0) then add h (Int 24) else h in
  padStart 2 "0" (toString h) ++ ":" ++ padStart 2 "0" (toString m).

Definition addMinutes (time : string) (mins : Z) : string :=
  minutesToTime (add (timeToMinutes time) (Int mins)).

Definition getDuration (start end_ : string) : num :=
  let diff := sub (timeToMinutes end_) (timeToMinutes start) in
  if ltb diff (Int 0) then add diff (Int 1440) else diff.

Definition calculateInterpolatedWakeWindow (month : Z) (std : SleepStandard) : Z :=
  if rangeStart std =? rangeEnd std then maxWake std
  else
    let progress :=
      (inject_Z (month - rangeStart std) / inject_Z (rangeEnd std - rangeStart std))%Q in
    round (inject_Z (minWake std) + inject_Z (maxWake std - minWake std) * progress)%Q.

Definition isLater (a b : string) : bool := gtb (timeToMinutes a) (timeToMinutes b).

(** The double quote, for the texts that contain one. *)
Definition dq : string := String (ascii_of_nat 34) "".

Definition lastOf {A : Type} (l : list A) : option A :=
  nth_error l (List.length l - 1).

(** The mutable locals of [scheduleData], threaded through its phases. *)
Record Locals : Set := {
  l_events : list PlannedEvent;
  l_warnings : list string;
  l_currentTime : string;
  l_napsPlanned : Z;
  l_nextWakeWindow : Z
}.

Definition pushEvent (e : PlannedEvent) (st : Locals) : Locals :=
  {| l_events := l_events st ++ [e];
     l_warnings := l_warnings st;
     l_currentTime := l_currentTime st;
     l_napsPlanned := l_napsPlanned st;
     l_nextWakeWindow := l_nextWakeWindow st |}.

Definition pushWarnings (ws : list string) (st : Locals) : Locals :=
  {| l_events := l_events st;
     l_warnings := l_warnings st ++ ws;
     l_currentTime := l_currentTime st;
     l_napsPlanned := l_napsPlanned st;
     l_nextWakeWindow := l_nextWakeWindow st |}.

(** [naps.forEach ((nap, index) => ...)]. *)
Fixpoint forEach (body : Locals -> NapEntry -> Z -> Locals)
    (st : Locals) (index : Z) (l : list NapEntry) : Locals :=
  match l with
  | [] => st
  | n :: r => forEach body (body st n index) (index + 1) r
  end.

(** [for (let i = start; ...; i++)] running [count] more times. *)
Fixpoint forLoop (body : Locals -> Z -> Locals)
    (count : nat) (i : Z) (st : Locals) : Locals :=
  match count with
  | O => st
  | S k => forLoop body k (i + 1) (body st i)
  end.

(** The wake window in hours with one decimal place:
    [Math.round (w / 60 * 10) / 10], printed. *)
Definition hoursText (w : Z) : string :=
  tenthsToString (round (inject_Z w / 60 * 10)%Q).

(** The age progress inside a band, [(age - rangeStart) / (rangeEnd - rangeStart)]. *)
Definition ageProgress (ageMonths : Z) (std : SleepStandard) : Q :=
  (inject_Z (ageMonths - rangeStart std) / inject_Z (rangeEnd std - rangeStart std))%Q.

(** ** The first variant (source lines 1 to 724) *)

Module V1.

Inductive AgeGroupKey : Set := k0_3 | k4_6 | k7_12 | k13_18 | k19_36 | k36plus.

Definition SLEEP_STANDARDS (k : AgeGroupKey) : SleepStandard :=
  match k with
  | k0_3 =>
      {| rangeStart := 0; rangeEnd := 3; minWake := 45; maxWake := 90;
         naps := 4; label := "Neugeborenes (0–3 Monate)"; mode := window;
         bedtimeWindow := 90;
         description := "Kein Tag-Nacht-Rhythmus. Schlafdruck baut sich extrem schnell auf.";
         tooLongNapMinutes := 120; latestNapEndTime := "18:00"; idealBedtime := "20:00" |}
  | k4_6 =>
      {| rangeStart := 4; rangeEnd := 6; minWake := 90; maxWake := 150;
         naps := 3; label := "Säugling (4–6 Monate)"; mode := window;
         bedtimeWindow := 150;
         description := "Schlaf wird zyklisch. Wachfenster steuern den Tag.";
         tooLongNapMinutes := 120; latestNapEndTime := "17:30"; idealBedtime := "19:30" |}
  | k7_12 =>
      {| rangeStart := 7; rangeEnd := 12; minWake := 150; maxWake := 210;
         naps := 2; label := "Baby (7–12 Monate)"; mode := hybrid;
         bedtimeWindow := 210;
         description := "Übergang zu 2 Naps. Letztes Wachfenster ist das längste.";
         tooLongNapMinutes := 120; latestNapEndTime := "16:30"; idealBedtime := "19:30" |}
  | k13_18 =>
      {| rangeStart := 13; rangeEnd := 18; minWake := 240; maxWake := 300;
         naps := 1; label := "Kleinkind (13–18 Monate)"; mode := hybrid;
         bedtimeWindow := 270;
         description := "Umstellung auf einen Mittagsschlaf. Mittagsschlaf sollte mittig liegen.";
         tooLongNapMinutes := 150; latestNapEndTime := "15:00"; idealBedtime := "19:30" |}
  | k19_36 =>
      {| rangeStart := 19; rangeEnd := 36; minWake := 300; maxWake := 360;
         naps := 1; label := "Kleinkind (2–3 Jahre)"; mode := clock;
         bedtimeWindow := 360;
         description := "Strategie: Bei frühem Erwachen Nap vorziehen & begrenzen, um Nachtschlaf zu verlängern.";
         tooLongNapMinutes := 120; latestNapEndTime := "15:00"; idealBedtime := "19:30" |}
  | k36plus =>
      {| rangeStart := 37; rangeEnd := 60; minWake := 360; maxWake := 720;
         naps := 0; label := "Vorschulkind (3–5 Jahre)"; mode := clock;
         bedtimeWindow := 720;
         description := "Mittagsschlaf entfällt meist. Ruhezeit statt Schlaf.";
         tooLongNapMinutes := 60; latestNapEndTime := "14:30"; idealBedtime := "20:00" |}
  end.

Definition getStandardByMonth (month : Z) : SleepStandard :=
  if month <=? 3 then SLEEP_STANDARDS k0_3
  else if month <=? 6 then SLEEP_STANDARDS k4_6
  else if month <=? 12 then SLEEP_STANDARDS k7_12
  else if month <=? 18 then SLEEP_STANDARDS k13_18
  else if month <=? 36 then SLEEP_STANDARDS k19_36
  else SLEEP_STANDARDS k36plus.

Record DerivationResult : Set := {
  events : list PlannedEvent;
  warnings : list string;
  standard : SleepStandard
}.

Definition wakeEvent (wakeTime : string) : PlannedEvent :=
  {| type := wake; evStart := wakeTime; evEnd := None;
     title := "Tagesbeginn";
     evDescription := "Start des Schlafdruck-Aufbaus.";
     reasoning := "Licht und Frühstück helfen, die innere Uhr zu stellen.";
     isPrediction := false; alertLevel := None |}.

Definition earlyWakeWarning : string :=
  "Frühes Aufwachen (05:00): Strategie " ++ dq ++ "Nap Capping" ++ dq
  ++ " aktiviert, um Nachtschlaf zu verlängern.".

(** 2) the naps already taken: the body of [naps.forEach]. *)
Definition observedNap (std : SleepStandard)
    (st : Locals) (entry : NapEntry) (index : Z) : Locals :=
  let isCrapNap := ltb (duration entry) (Int 45) in
  let isTooLong := gtb (duration entry) (Int (tooLongNapMinutes std)) in
  let '(reason, alert) :=
    if isCrapNap then
      ("Kurzer Nap baut Schlafdruck nur unvollständig ab. Nächstes Wachfenster verkürzen.",
       warning)
    else if isTooLong then
      ("Zu langer Nap " ++ dq ++ "stiehlt" ++ dq ++ " Schlafdruck für die Nacht.", warning)
    else ("Gute Erholung.", normal) in
  {| l_events := l_events st ++
       [ {| type := nap; evStart := startTime entry; evEnd := Some (endTime entry);
            title := "Nickerchen " ++ toString (Int (index + 1)) ++ " (Ist)";
            evDescription := toString (duration entry) ++ " min.";
            reasoning := reason; isPrediction := false; alertLevel := Some alert |} ];
     l_warnings := l_warnings st;
     l_currentTime := endTime entry;
     l_napsPlanned := l_napsPlanned st + 1;
     l_nextWakeWindow := l_nextWakeWindow st |}.

Definition shortNapWarning : string :=
  "Vorheriger Nap war kurz: Nächstes Wachfenster deutlich reduziert.".

(** The adjustment after a short last nap. *)
Definition shortNapAdjust (l : list NapEntry) (st : Locals) : Locals :=
  match lastOf l with
  | Some lastNap =>
      if ltb (duration lastNap) (Int 45) then
        {| l_events := l_events st;
           l_warnings := l_warnings st ++ [shortNapWarning];
           l_currentTime := l_currentTime st;
           l_napsPlanned := l_napsPlanned st;
           l_nextWakeWindow := round (inject_Z (l_nextWakeWindow st) * (8 # 10))%Q |}
      else st
  | None => st
  end.

(** The locals of one round of the prediction loop. *)
Record Note : Set := {
  predictedNapStart : string;
  predictedDuration : Z;
  noteTitle : string;
  noteDesc : string;
  noteReason : string;
  noteAlert : AlertLevel;
  notePushed : list string
}.

Definition cappingWarning : string :=
  "WICHTIG: Mittagsschlaf nach 75 Minuten beenden (Wecken), damit die Bettzeit heute Abend passt.".

(** The placement of one predicted nap: the toddler branch (capped early nap
    or clock nap) or the wake-window branch. *)
Definition placeNap (std : SleepStandard) (isToddler : bool)
    (st : Locals) (napNumber : Z) : Note :=
  if isToddler && (naps std =? 1) && (l_napsPlanned st =? 0) then
    let idealClockNap := timeToMinutes "12:30" in
    let physiologicalMaxNap := add (timeToMinutes (l_currentTime st)) (Int (maxWake std)) in
    if ltb physiologicalMaxNap (sub idealClockNap (Int 30)) then
      let start := minutesToTime physiologicalMaxNap in
      let wakeUpTime := addMinutes start 75 in
      {| predictedNapStart := start;
         predictedDuration := 75;
         noteTitle := "Strategischer Mittagsschlaf (Capping)";
         noteDesc := "Start: " ++ start ++ " | Wecken um: " ++ wakeUpTime;
         noteReason := "Kompromisszeit 11:00 Uhr. WICHTIG: Nach 75 Min (" ++ wakeUpTime
           ++ ") wecken! Das sichert genug Schlafdruck für eine Bettzeit um 18:15 Uhr.";
         noteAlert := warning;
         notePushed := [cappingWarning] |}
    else
      let physiologicalMinNap := add (timeToMinutes (l_currentTime st)) (Int (minWake std)) in
      let target := max physiologicalMinNap idealClockNap in
      let finalStart := min target physiologicalMaxNap in
      let start := minutesToTime finalStart in
      {| predictedNapStart := start;
         predictedDuration := 90;
         noteTitle := "Vorschlag: Nap " ++ toString (Int napNumber);
         noteDesc := "Zielzeit ca. " ++ start ++ ". Dauer: 90 Min.";
         noteReason := "Standard-Mittagsschlafzeit passend zum Wachfenster.";
         noteAlert := normal;
         notePushed := [] |}
  else
    let start := addMinutes (l_currentTime st) (l_nextWakeWindow st) in
    let dur := if (1 <? naps std) && (napNumber =? naps std) then 30 else 90 in
    {| predictedNapStart := start;
       predictedDuration := dur;
       noteTitle := "Vorschlag: Nap " ++ toString (Int napNumber);
       noteDesc := "Dauer ca. " ++ toString (Int dur) ++ " Min.";
       noteReason := "Basiert auf Wachfenster von ca. " ++ hoursText (l_nextWakeWindow st)
         ++ " Std.";
       noteAlert := normal;
       notePushed := [] |}.

Definition lateNote (predictedNapEnd : string) : string :=
  " ACHTUNG: Nap endet sehr spät (" ++ predictedNapEnd ++ "). Gefahr für Bettzeit!".

(** 3) one round of the prediction loop. *)
Definition predictNap (std : SleepStandard) (isToddler : bool)
    (st : Locals) (i : Z) : Locals :=
  let napNumber := l_napsPlanned st + i + 1 in
  let note := placeNap std isToddler st napNumber in
  let predictedNapEnd := addMinutes (predictedNapStart note) (predictedDuration note) in
  let late := negb (String.eqb (latestNapEndTime std) "")
              && isLater predictedNapEnd (latestNapEndTime std) in
  {| l_events := l_events st ++
       [ {| type := nap;
            evStart := predictedNapStart note;
            evEnd := Some predictedNapEnd;
            title := noteTitle note;
            evDescription := noteDesc note;
            reasoning := if late then noteReason note ++ lateNote predictedNapEnd
                         else noteReason note;
            isPrediction := true;
            alertLevel := Some (if late then warning else noteAlert note) |} ];
     l_warnings := l_warnings st ++ notePushed note;
     l_currentTime := predictedNapEnd;
     l_napsPlanned := l_napsPlanned st;
     l_nextWakeWindow := maxWake std |}.

(** 1) to 3): the wake event, the observed naps and the predicted naps. *)
Definition planNaps (ageMonths : Z) (wakeTime : string) (l : list NapEntry) : Locals :=
  let std := getStandardByMonth ageMonths in
  let specificWakeWindow := calculateInterpolatedWakeWindow ageMonths std in
  let wakeMins := timeToMinutes wakeTime in
  let st :=
    {| l_events := [wakeEvent wakeTime];
       l_warnings := if ltb wakeMins (Int 360) then [earlyWakeWarning] else [];
       l_currentTime := wakeTime;
       l_napsPlanned := 0;
       l_nextWakeWindow := specificWakeWindow |} in
  let st := forEach (observedNap std) st 0 l in
  let remainingNaps := Z.max 0 (naps std - l_napsPlanned st) in
  let isToddler := (19 <=? ageMonths) && (ageMonths <=? 36) in
  let st := shortNapAdjust l st in
  forLoop (predictNap std isToddler) (Z.to_nat remainingNaps) 0 st.

Definition isToddlerAge (ageMonths : Z) : bool :=
  (19 <=? ageMonths) && (ageMonths <=? 36).

(** Whether the last planned event is the capped nap. *)
Definition isStrategicCapping (ageMonths : Z) (st : Locals) : bool :=
  match lastOf (l_events st) with
  | Some lastEvent =>
      isToddlerAge ageMonths
      && match type lastEvent with nap => true | _ => false end
      && includes "Capping" (title lastEvent)
  | None => false
  end.

(** 4) the wake window before bed. *)
Definition finalWakeWindow (ageMonths : Z) (st : Locals) : Z :=
  let std := getStandardByMonth ageMonths in
  let base :=
    if Mode_eqb (mode std) clock then bedtimeWindow std
    else round (inject_Z (bedtimeWindow std) - 30 + 60 * ageProgress ageMonths std)%Q in
  if isStrategicCapping ageMonths st then 360
  else
    match lastOf (l_events st) with
    | Some lastEvent =>
        match type lastEvent, alertLevel lastEvent with
        | nap, Some warning => round (inject_Z base * (9 # 10))%Q
        | _, _ => base
        end
    | None => base
    end.

Definition bedtimeEvent (ageMonths : Z) (st : Locals) : PlannedEvent :=
  let w := finalWakeWindow ageMonths st in
  let bedtime_ := addMinutes (l_currentTime st) w in
  let bedtimeMins := timeToMinutes bedtime_ in
  if isStrategicCapping ageMonths st then
    {| type := bedtime; evStart := addMinutes (l_currentTime st) 360; evEnd := None;
       title := "Ziel-Bettzeit";
       evDescription := "18:15 – 18:45 Uhr";
       reasoning := "Nach dem Wecken um 12:15 Uhr benötigt das Kind ca. 5,5–6h Wachzeit. Ziel: Übermüdung vermeiden, aber Schlafdruck nutzen.";
       isPrediction := true; alertLevel := Some warning |}
  else if ltb bedtimeMins (Int 1080) then
    {| type := bedtime; evStart := bedtime_; evEnd := None;
       title := "Frühe Bettzeit";
       evDescription := "Ausgleich für frühen Start";
       reasoning := "Wegen des frühen Morgens ist eine frühe Bettzeit nötig.";
       isPrediction := true; alertLevel := Some warning |}
  else if gtb bedtimeMins (Int 1260) then
    {| type := bedtime; evStart := bedtime_; evEnd := None;
       title := "Späte Bettzeit";
       evDescription := "Nachtruhe";
       reasoning := "Wachfenster wurde sehr lang. Risiko, dass das Kind überdreht.";
       isPrediction := true; alertLevel := Some critical |}
  else
    {| type := bedtime; evStart := bedtime_; evEnd := None;
       title := "Bettzeit";
       evDescription := "Nachtruhe";
       reasoning := "Wachzeit vor Bett: " ++ hoursText w ++ " Std.";
       isPrediction := true; alertLevel := Some normal |}.

Definition scheduleData (ageMonths : Z) (wakeTime : string) (l : list NapEntry)
    : DerivationResult :=
  let st := planNaps ageMonths wakeTime l in
  {| events := l_events st ++ [bedtimeEvent ageMonths st];
     warnings := l_warnings st;
     standard := getStandardByMonth ageMonths |}.

End V1.

(** ** The second variant (source lines 724 to 1507) *)

Module V2.

Inductive AgeGroupKey : Set := k0_3 | k4_6 | k7_12 | k13_18 | k19_36 | k36plus.

Definition SLEEP_STANDARDS (k : AgeGroupKey) : SleepStandard :=
  match k with
  | k0_3 =>
      {| rangeStart := 0; rangeEnd := 3; minWake := 45; maxWake := 90;
         naps := 4; label := "Neugeborenes (0–3 Monate)"; mode := window;
         bedtimeWindow := 90;
         description := "In dieser Phase besteht noch kein stabiler Tag-Nacht-Rhythmus. Der Schlafdruck steigt sehr rasch an, weshalb kurze Wachphasen und mehrere Schlafepisoden über den Tag verteilt physiologisch normal sind.";
         tooLongNapMinutes := 150; latestNapEndTime := "18:00"; idealBedtime := "20:00" |}
  | k4_6 =>
      {| rangeStart := 4; rangeEnd := 6; minWake := 90; maxWake := 150;
         naps := 3; label := "Säugling (4–6 Monate)"; mode := window;
         bedtimeWindow := 150;
         description := "Der Schlaf wird zunehmend zyklisch. Wachfenster sind der zentrale Steuerungsfaktor. Kürzere Nickerchen sind altersentsprechend und erfordern häufig ein früheres erneutes Schlafangebot.";
         tooLongNapMinutes := 150; latestNapEndTime := "17:30"; idealBedtime := "19:30" |}
  | k7_12 =>
      {| rangeStart := 7; rangeEnd := 12; minWake := 150; maxWake := 210;
         naps := 2; label := "Baby (7–12 Monate)"; mode := hybrid;
         bedtimeWindow := 210;
         description := "Der zirkadiane Rhythmus stabilisiert sich zunehmend. Der Übergang auf zwei Nickerchen erfolgt schrittweise. Die letzte Wachphase des Tages ist in der Regel die längste und besonders sensibel für Übermüdung.";
         tooLongNapMinutes := 150; latestNapEndTime := "16:30"; idealBedtime := "19:30" |}
  | k13_18 =>
      {| rangeStart := 13; rangeEnd := 18; minWake := 210; maxWake := 300;
         naps := 1; label := "Kleinkind (13–18 Monate)"; mode := hybrid;
         bedtimeWindow := 270;
         description := "Phase der Umstellung auf einen Mittagsschlaf. Ein zu früher Wechsel kann Übermüdung begünstigen und sich in frühem Erwachen, häufigem nächtlichem Aufwachen oder verkürztem Nachtschlaf zeigen.";
         tooLongNapMinutes := 150; latestNapEndTime := "15:30"; idealBedtime := "19:30" |}
  | k19_36 =>
      {| rangeStart := 19; rangeEnd := 36; minWake := 300; maxWake := 360;
         naps := 1; label := "Kleinkind (2–3 Jahre) — Schwerpunkt"; mode := clock;
         bedtimeWindow := 330;
         description := "Der Tagesrhythmus wird überwiegend durch feste Uhrzeiten geprägt. Zentrale Stellschrauben sind ein konsistenter Mittagsschlaf sowie das gezielte Begrenzen des Tagschlafs („Nap-Capping“), um eine altersgerechte Bettzeit zuverlässig zu sichern.";
         tooLongNapMinutes := 150; latestNapEndTime := "15:30"; idealBedtime := "19:30" |}
  | k36plus =>
      {| rangeStart := 37; rangeEnd := 60; minWake := 360; maxWake := 720;
         naps := 0; label := "Vorschulkind (3–5 Jahre)"; mode := clock;
         bedtimeWindow := 720;
         description := "Der Mittagsschlaf entfällt zunehmend. Eine verlässliche Tagesstruktur mit ruhiger Abendroutine und konstanter Bettzeit ist in diesem Alter meist wirksamer als ein erzwungener Tagschlaf.";
         tooLongNapMinutes := 120; latestNapEndTime := "15:00"; idealBedtime := "20:00" |}
  end.

Definition getStandardByMonth (month : Z) : SleepStandard :=
  if month <=? 3 then SLEEP_STANDARDS k0_3
  else if month <=? 6 then SLEEP_STANDARDS k4_6
  else if month <=? 12 then SLEEP_STANDARDS k7_12
  else if month <=? 18 then SLEEP_STANDARDS k13_18
  else if month <=? 36 then SLEEP_STANDARDS k19_36
  else SLEEP_STANDARDS k36plus.

Record DerivationResult : Set := {
  events : list PlannedEvent;
  warnings : list string;
  standard : SleepStandard;
  specificWakeWindow : Z
}.

Definition wakeEvent (wakeTime : string) : PlannedEvent :=
  {| type := wake; evStart := wakeTime; evEnd := None;
     title := "Tagesbeginn";
     evDescription := "Beginn des Wachabschnitts (Schlafdruckaufbau).";
     reasoning := "Tageslicht am Morgen sowie Frühstück und Bewegung unterstützen die Synchronisation der inneren Uhr."
       ++ String (ascii_of_nat 10) ""
       ++ "Das ist besonders hilfreich, wenn es zu sehr frühem Erwachen kommt.";
     isPrediction := false; alertLevel := None |}.

Definition earlyWakeWarning : string :=
  "Sehr frühes Erwachen (< 06:00): Tagesrhythmus kann nach vorn kippen. Erstes Schläfchen tendenziell leicht hinauszögern.".

Definition shortNapWarning (index : Z) : string :=
  "Nap " ++ toString (Int (index + 1)) ++ " war kurz. Nächstes Wachfenster etwas verkürzen.".

(** 2. the naps already taken: the body of [naps.forEach]. *)
Definition observedNap (std : SleepStandard)
    (st : Locals) (entry : NapEntry) (index : Z) : Locals :=
  let isCrapNap := ltb (duration entry) (Int 45) in
  let isTooLong := gtb (duration entry) (Int (tooLongNapMinutes std)) in
  let base := toString (duration entry) ++ " min." in
  let '(desc, reason, alert) :=
    if isCrapNap then
      (base ++ " ⚠️ Kurz",
       "Kurzer Nap: Ein Schlafzyklus wurde vermutlich nicht vollendet. "
       ++ "Der Schlafdruck wird nur teilweise abgebaut → nächstes Wachfenster eher kürzer planen.",
       warning)
    else if isTooLong then
      (base ++ " ⚠️ Sehr lang",
       "Sehr langer Tagschlaf kann den Schlafdruck für die Nacht reduzieren (" ++ dq
       ++ "Sleep Pressure stealing" ++ dq ++ "). "
       ++ "Das kann zu später Bettzeit, nächtlichem Wachsein oder frühem Erwachen führen.",
       warning)
    else
      (base ++ " ✅ Erholsam",
       "Gute Nap-Länge: Unterstützt Erholung und Stabilität, ohne den Nachtschlaf unnötig zu beeinträchtigen.",
       normal) in
  {| l_events := l_events st ++
       [ {| type := nap; evStart := startTime entry; evEnd := Some (endTime entry);
            title := "Nickerchen " ++ toString (Int (index + 1));
            evDescription := desc;
            reasoning := reason; isPrediction := false; alertLevel := Some alert |} ];
     l_warnings := l_warnings st ++
       (if isCrapNap && (index <? naps std - 1) then [shortNapWarning index] else []);
     l_currentTime := endTime entry;
     l_napsPlanned := l_napsPlanned st + 1;
     l_nextWakeWindow := l_nextWakeWindow st |}.

(** The adjustment after a short last nap. *)
Definition shortNapAdjust (l : list NapEntry) (st : Locals) : Locals :=
  match lastOf l with
  | Some lastNap =>
      if ltb (duration lastNap) (Int 45) then
        {| l_events := l_events st;
           l_warnings := l_warnings st;
           l_currentTime := l_currentTime st;
           l_napsPlanned := l_napsPlanned st;
           l_nextWakeWindow := round (inject_Z (l_nextWakeWindow st) * (85 # 100))%Q |}
      else st
  | None => st
  end.

Definition lateNapWarning (napNumber : Z) (latest : string) : string :=
  "Nap " ++ toString (Int napNumber)
  ++ " würde voraussichtlich sehr spät enden (nach " ++ latest ++ "). "
  ++ "Das kann die Bettzeit deutlich nach hinten verschieben – ggf. früher starten oder kürzen (Nap-Capping).".

(** 3. one round of the prediction loop. *)
Definition predictNap (ageMonths : Z) (std : SleepStandard) (specific : Z)
    (st : Locals) (i : Z) : Locals :=
  let isClockMode := Mode_eqb (mode std) clock in
  let napNumber := l_napsPlanned st + i + 1 in
  let isLastNap := napNumber =? naps std in
  let predictedNapStart :=
    if isClockMode && (naps std =? 1) && (l_napsPlanned st =? 0) then "12:30"
    else addMinutes (l_currentTime st) (l_nextWakeWindow st) in
  let predictedDuration := if (3 <=? naps std) && isLastNap then 30 else 90 in
  let predictedNapEnd := addMinutes predictedNapStart predictedDuration in
  let late := negb (String.eqb (latestNapEndTime std) "")
              && gtb (timeToMinutes predictedNapEnd) (timeToMinutes (latestNapEndTime std)) in
  let reasoningText :=
    if isClockMode && (naps std =? 1) then
      "Im Uhrzeit-Modus wird der Mittagsschlaf bewusst „by the clock“ geplant, um die innere Uhr zu stabilisieren."
    else
      "Orientierungswert für " ++ toString (Int ageMonths) ++ " Monate: Wachfenster ca. "
      ++ hoursText (l_nextWakeWindow st) ++ " Std." in
  {| l_events := l_events st ++
       [ {| type := nap;
            evStart := predictedNapStart;
            evEnd := Some predictedNapEnd;
            title := "Vorschlag: Nap " ++ toString (Int napNumber);
            evDescription := "Voraussichtliche Dauer: ca. " ++ toString (Int predictedDuration)
              ++ " Min.";
            reasoning := reasoningText;
            isPrediction := true;
            alertLevel := None |} ];
     l_warnings := l_warnings st ++
       (if late then [lateNapWarning napNumber (latestNapEndTime std)] else []);
     l_currentTime := predictedNapEnd;
     l_napsPlanned := l_napsPlanned st;
     l_nextWakeWindow := Z.min (maxWake std) (specific + 15) |}.

(** 1. to 3.: the wake event, the observed naps and the predicted naps. *)
Definition planNaps (ageMonths : Z) (wakeTime : string) (l : list NapEntry) : Locals :=
  let std := getStandardByMonth ageMonths in
  let specific := calculateInterpolatedWakeWindow ageMonths std in
  let st :=
    {| l_events := [wakeEvent wakeTime];
       l_warnings := if ltb (timeToMinutes wakeTime) (Int 360) then [earlyWakeWarning] else [];
       l_currentTime := wakeTime;
       l_napsPlanned := 0;
       l_nextWakeWindow := specific |} in
  let st := forEach (observedNap std) st 0 l in
  let remainingNaps := Z.max 0 (naps std - l_napsPlanned st) in
  let st := shortNapAdjust l st in
  forLoop (predictNap ageMonths std specific) (Z.to_nat remainingNaps) 0 st.

(** 4. the wake window before bed. *)
Definition bedtimeWakeWindow (ageMonths : Z) : Z :=
  let std := getStandardByMonth ageMonths in
  if Mode_eqb (mode std) window || Mode_eqb (mode std) hybrid
  then round (inject_Z (bedtimeWindow std) - 15 + 30 * ageProgress ageMonths std)%Q
  else bedtimeWindow std.

Definition lateLastNapWarning (ideal : string) : string :=
  "Der letzte Tagschlaf endet im Verhältnis zur Ziel-Bettzeit (" ++ ideal ++ ") eher spät. "
  ++ "Das kann die Bettzeit nach hinten verschieben – ggf. Nap früher beenden oder kürzen (Nap-Capping).".

(** Edge case C: the last observed nap ends late for the target bedtime. *)
Definition edgeCaseC (ageMonths : Z) (l : list NapEntry) : list string :=
  let std := getStandardByMonth ageMonths in
  match lastOf l with
  | Some lastNap =>
      if negb (String.eqb (idealBedtime std) "")
         && gtb (add (timeToMinutes (endTime lastNap)) (Int (bedtimeWakeWindow ageMonths)))
                (timeToMinutes (idealBedtime std))
      then [lateLastNapWarning (idealBedtime std)]
      else []
  | None => []
  end.

Definition bedtimeEvent (ageMonths : Z) (st : Locals) : PlannedEvent :=
  let w := bedtimeWakeWindow ageMonths in
  let bedtime_ := addMinutes (l_currentTime st) w in
  let bedtimeMins := timeToMinutes bedtime_ in
  if ltb bedtimeMins (Int 1080) && gtb bedtimeMins (Int 360) then
    {| type := bedtime; evStart := "18:00"; evEnd := None;
       title := "Bettzeit";
       evDescription := "Frühere Bettzeit zur Stabilisierung (Übermüdung vorbeugen).";
       reasoning := "Die rechnerische Bettzeit wäre sehr früh. 18:00 dient häufig als sinnvoller Anker, wenn der Tag sehr „kurz“ war.";
       isPrediction := true; alertLevel := Some warning |}
  else if gtb bedtimeMins (Int 1260) then
    {| type := bedtime; evStart := bedtime_; evEnd := None;
       title := "Bettzeit";
       evDescription := "Hinweis: Später Schlafbeginn möglich.";
       reasoning := "Bei sehr spätem Einschlafen steigt das Risiko für „Second Wind“ (Stressaktivierung), was das Abschalten erschweren kann.";
       isPrediction := true; alertLevel := Some critical |}
  else
    {| type := bedtime; evStart := bedtime_; evEnd := None;
       title := "Bettzeit";
       evDescription := "Beginn der Nachtruhe.";
       reasoning := "Berechnung: Ende des letzten Schlafs + " ++ hoursText w
         ++ " Std. Wachzeit.";
       isPrediction := true; alertLevel := Some normal |}.

Definition scheduleData (ageMonths : Z) (wakeTime : string) (l : list NapEntry)
    : DerivationResult :=
  let st := planNaps ageMonths wakeTime l in
  {| events := l_events st ++ [bedtimeEvent ageMonths st];
     warnings := l_warnings st ++ edgeCaseC ageMonths l;
     standard := getStandardByMonth ageMonths;
     specificWakeWindow :=
       calculateInterpolatedWakeWindow ageMonths (getStandardByMonth ageMonths) |}.

End V2.

(** ** The nap log (the same in both variants) *)

Record NapLog : Set := {
  log_naps : list NapEntry;
  napStart : string;
  napEnd : string
}.

(** [Array.prototype.sort] with the comparator
    [(a, b) => timeToMinutes (a.startTime) - timeToMinutes (b.startTime)]:
    a stable sort; a comparator value of [NaN] counts as [0]. *)
Definition compareStart (a b : NapEntry) : num :=
  sub (timeToMinutes (startTime a)) (timeToMinutes (startTime b)).

Fixpoint insertNap (x : NapEntry) (l : list NapEntry) : list NapEntry :=
  match l with
  | [] => [x]
  | y :: r => if gtb (compareStart x y) (Int 0) then y :: insertNap x r else x :: l
  end.

Definition sortNaps (l : list NapEntry) : list NapEntry :=
  fold_right insertNap [] l.

(** [addNap], with the reading of [Date.now ()] given as [now]. *)
Definition addNap (now : Z) (st : NapLog) : NapLog :=
  if String.eqb (napStart st) "" || String.eqb (napEnd st) "" then st
  else
    let d := getDuration (napStart st) (napEnd st) in
    {| log_naps :=
         sortNaps (log_naps st ++
           [ {| id := toString (Int now); startTime := napStart st;
                endTime := napEnd st; duration := d |} ]);
       napStart := "";
       napEnd := "" |}.

Definition removeNap (target : string) (st : NapLog) : NapLog :=
  {| log_naps := filter (fun n => negb (String.eqb (id n) target)) (log_naps st);
     napStart := napStart st;
     napEnd := napEnd st |}.

(** ** The password gate (the unnamed source file) *)

Module PasswordGate.

Definition PASSWORD : string := "sleep123".

(** The two state cells of the component. *)
Record State : Set := {
  input : string;
  ok : bool
}.

Definition initial : State := {| input := ""; ok := false |}.

(** What the user can do with the form: type into the field or press the
    button. *)
Inductive Action : Set :=
| Change (value : string)
| Click.

(** What the component shows: the children, or the form with the typed text
    and, possibly, the wrong-password line. *)
Inductive View : Set :=
| Children
| Form (value : string) (wrongPassword : bool).

Definition render (st : State) : View :=
  if ok st then Children
  else Form (input st)
         (negb (String.eqb (input st) "") && negb (String.eqb (input st) PASSWORD)).

(** The handlers of the form; once the children are shown there is no form
    and no handler left. *)
Definition handle (st : State) (a : Action) : State :=
  match render st with
  | Children => st
  | Form _ _ =>
      match a with
      | Change value => {| input := value; ok := ok st |}
      | Click =>
          if String.eqb (input st) PASSWORD then {| input := input st; ok := true |}
          else st
      end
  end.

Definition run (st : State) (actions : list Action) : State :=
  fold_left handle actions st.

End PasswordGate.

(** ** Vocabulary of the statements *)

(** The two-digit, zero-padded rendering of a time of day, written digit by
    digit: what "HH:MM" means for [0 <= h < 24] and [0 <= m < 60]. *)
Definition digitChar (d : Z) : ascii := ascii_of_nat (48 + Z.to_nat d).

Definition twoDigits (n : Z) : string :=
  String (digitChar (n / 10)) (String (digitChar (n mod 10)) "").

Definition hhmm (h m : Z) : string := twoDigits h ++ ":" ++ twoDigits m.

(** The rendering of a minute of the day, [0 <= t < 1440]. *)
Definition clockText (t : Z) : string := hhmm (t / 60) (t mod 60).

(** The unpadded text [h:m], as an interpolated string writes two numbers. *)
Definition unpadded (h m : Z) : string := toString (Int h) ++ ":" ++ toString (Int m).

(** A string that [timeToMinutes] reads as a number of minutes. *)
Definition readsAsMinutes (s : string) : Prop := exists z, timeToMinutes s = Int z.

(** Order of two nap entries by start time. *)
Definition startLe (a b : NapEntry) : Prop :=
  exists x y, timeToMinutes (startTime a) = Int x
              /\ timeToMinutes (startTime b) = Int y /\ x <= y.

(** What a schedule says apart from its texts: kind, start and end of each
    event. *)
Definition times (l : list PlannedEvent) : list (EventType * string * option string) :=
  map (fun e => (type e, evStart e, evEnd e)) l.

(** A predicted nap that ends later than the band's latest nap end. *)
Definition endsLate (std : SleepStandard) (e : PlannedEvent) : Prop :=
  type e = nap /\ isPrediction e = true
  /\ exists t, evEnd e = Some t /\ isLater t (latestNapEndTime std) = true.

(** First variant: the event carries the severity warning and its reasoning
    mentions the risk to bedtime. *)
Definition flaggedInEvent (e : PlannedEvent) : Prop :=
  alertLevel e = Some warning /\ includes "Gefahr für Bettzeit" (reasoning e) = true.

(** Second variant: the event carries no severity and the warnings hold the
    late-end warning for the nap of that number, which mentions bedtime. *)
Definition flaggedInWarnings (std : SleepStandard) (ws : list string)
    (e : PlannedEvent) : Prop :=
  alertLevel e = None
  /\ exists k, title e = "Vorschlag: Nap " ++ toString (Int k)
               /\ In (V2.lateNapWarning k (latestNapEndTime std)) ws
               /\ includes "Bettzeit" (V2.lateNapWarning k (latestNapEndTime std)) = true.

(** The integers [lo], [lo + 1], ..., [lo + n - 1]. *)
Fixpoint countFrom (lo : Z) (n : nat) : list Z :=
  match n with
  | O => []
  | S k => lo :: countFrom (lo + 1) k
  end.

(** The value that [calculateInterpolatedWakeWindow] rounds. *)
Definition interpolate (std : SleepStandard) (month : Z) : Q :=
  (inject_Z (minWake std)
   + inject_Z (maxWake std - minWake std)
     * (inject_Z (month - rangeStart std) / inject_Z (rangeEnd std - rangeStart std)))%Q.

(** The checks that the proofs below run on every time of day. *)
Definition readsBack (h m : Z) : bool :=
  match timeToMinutes (hhmm h m) with
  | Int z => z =? 60 * h + m
  | NaN => false
  end.

Definition rendersWrapped (m : Z) : bool :=
  if (0 <=? m) || (m mod 60 =? 0)
  then String.eqb (minutesToTime (Int m)) (clockText (m mod 1440))
  else true.

Definition roundTrips (h m : Z) : bool :=
  String.eqb (minutesToTime (timeToMinutes (unpadded h m))) (hhmm h m)
  && String.eqb (minutesToTime (timeToMinutes (hhmm h m))) (hhmm h m)
  && Bool.eqb (String.eqb (unpadded h m) (hhmm h m)) ((10 <=? h) && (10 <=? m)).

(** The entry that [addNap] builds from the staged fields. *)
Definition stagedEntry (now : Z) (st : NapLog) : NapEntry :=
  {| id := toString (Int now); startTime := napStart st; endTime := napEnd st;
     duration := getDuration (napStart st) (napEnd st) |}.

(** Sample inputs. *)
Definition sampleLog : NapLog :=
  {| log_naps :=
       [ {| id := "1"; startTime := "12:00"; endTime := "13:00"; duration := Int 60 |} ];
     napStart := "09:00"; napEnd := "09:30" |}.

Definition blankLog : NapLog :=
  {| log_naps := log_naps sampleLog; napStart := ""; napEnd := "10:00" |}.

(** Age 24 months, waking at 05:00, no nap observed, in the first variant. *)
Definition scenario1 : V1.DerivationResult := V1.scheduleData 24 "05:00" [].

Definition shortNapLog : list NapEntry :=
  [ {| id := "1"; startTime := "09:00"; endTime := "09:30"; duration := Int 30 |} ].

Definition longNapLog : list NapEntry :=
  [ {| id := "1"; startTime := "09:00"; endTime := "11:10"; duration := Int 130 |} ].

(** The invariant of the first variant. *)
Definition V1_inv (std : SleepStandard) (st : Locals) : Prop :=
  Forall (fun e => endsLate std e -> flaggedInEvent e) (l_events st)
  /\ incl (l_warnings st) [V1.earlyWakeWarning; V1.shortNapWarning; V1.cappingWarning].

(** The invariant of the second variant. *)
Definition V2_inv (std : SleepStandard) (st : Locals) : Prop :=
  Forall (fun e => endsLate std e -> flaggedInWarnings std (l_warnings st) e) (l_events st).

(** ** Vocabulary of the further properties *)

(** Whether a character occurs in a string. *)
Fixpoint hasChar (c : ascii) (s : string) : bool :=
  match s with
  | EmptyString => false
  | String d r => Ascii.eqb d c || hasChar c r
  end.

(** Whether the comparator of the sort puts the entry [n] after [x]. *)
Definition startsAfter (x n : NapEntry) : bool := gtb (compareStart n x) (Int 0).

(** The entries that [removeNap] keeps. *)
Definition otherThan (target : string) (n : NapEntry) : bool :=
  negb (String.eqb (id n) target).

(** The text in the field after some actions, starting from [current]. *)
Definition typedAfter (current : string) (actions : list PasswordGate.Action) : string :=
  fold_left (fun text a =>
               match a with
               | PasswordGate.Change value => value
               | PasswordGate.Click => text
               end) actions current.

(** Where an event ends: its end time, or its start when it has none. *)
Definition endOf (e : PlannedEvent) : string :=
  match evEnd e with
  | Some t => t
  | None => evStart e
  end.

(** The severity of an observed nap: warning when it is shorter than 45
    minutes or longer than the band allows, normal otherwise. *)
Definition observedSeverity (std : SleepStandard) (n : NapEntry) : AlertLevel :=
  if ltb (duration n) (Int 45) || gtb (duration n) (Int (tooLongNapMinutes std))
  then warning else normal.

(** The event [e] shows the logged nap [n]. *)
Definition echoes (std : SleepStandard) (n : NapEntry) (e : PlannedEvent) : Prop :=
  type e = nap /\ evStart e = startTime n /\ evEnd e = Some (endTime n)
  /\ isPrediction e = false /\ alertLevel e = Some (observedSeverity std n).

(** The event [e] is a predicted nap lasting one of the given durations. *)
Definition predicted (durations : list Z) (e : PlannedEvent) : Prop :=
  type e = nap /\ isPrediction e = true
  /\ exists d, In d durations /\ evEnd e = Some (addMinutes (evStart e) d).

(** Each event starts a wake window after the end of the one before: the
    first one [w] minutes after [current], the following ones [later]
    minutes after their predecessor. *)
Fixpoint chained (current : string) (w later : Z) (evs : list PlannedEvent) : Prop :=
  match evs with
  | [] => True
  | e :: r => evStart e = addMinutes current w /\ chained (endOf e) later later r
  end.

(** The end of the last logged nap, or the wake time when the log is empty. *)
Definition lastEnd (wakeTime : string) (l : list NapEntry) : string :=
  match lastOf l with
  | Some n => endTime n
  | None => wakeTime
  end.

(** Whether the last logged nap was shorter than 45 minutes. *)
Definition lastShort (l : list NapEntry) : bool :=
  match lastOf l with
  | Some n => ltb (duration n) (Int 45)
  | None => false
  end.

(** The number of naps left to predict. *)
Definition remaining (std : SleepStandard) (l : list NapEntry) : nat :=
  Z.to_nat (Z.max 0 (naps std - Z.of_nat (List.length l))).

(** The condition under which a round of the prediction loop places the nap
    by the clock instead of by the wake window, in each variant. *)
Definition V1_byClock (ageMonths : Z) (std : SleepStandard) (planned : Z) : bool :=
  V1.isToddlerAge ageMonths && (naps std =? 1) && (planned =? 0).

Definition V2_byClock (std : SleepStandard) (planned : Z) : bool :=
  Mode_eqb (mode std) clock && (naps std =? 1) && (planned =? 0).

(** What one round of a prediction loop does to the locals. *)
Definition predictsOne (durations : list Z) (later : Z) (byClock : bool)
    (st st' : Locals) : Prop :=
  exists e,
    l_events st' = (l_events st ++ [e])%list
    /\ predicted durations e
    /\ l_currentTime st' = endOf e
    /\ l_napsPlanned st' = l_napsPlanned st
    /\ l_nextWakeWindow st' = later
    /\ (byClock = false ->
        evStart e = addMinutes (l_currentTime st) (l_nextWakeWindow st)).

(** What one round of [naps.forEach] does to the locals. *)
Definition echoesOne (std : SleepStandard) (n : NapEntry) (st st' : Locals) : Prop :=
  exists e,
    l_events st' = (l_events st ++ [e])%list
    /\ echoes std n e
    /\ l_currentTime st' = endTime n
    /\ l_napsPlanned st' = l_napsPlanned st + 1
    /\ l_nextWakeWindow st' = l_nextWakeWindow st.

(** The wake window before the first predicted nap: the interpolated one,
    reduced after a short last nap (to 80 percent in the first variant, to 85
    percent in the second). *)
Definition V1_firstWindow (ageMonths : Z) (l : list NapEntry) : Z :=
  let specific := calculateInterpolatedWakeWindow ageMonths (V1.getStandardByMonth ageMonths) in
  if lastShort l then round (inject_Z specific * (8 # 10))%Q else specific.

Definition V2_firstWindow (ageMonths : Z) (l : list NapEntry) : Z :=
  let specific := calculateInterpolatedWakeWindow ageMonths (V2.getStandardByMonth ageMonths) in
  if lastShort l then round (inject_Z specific * (85 # 100))%Q else specific.

(** The wake window between later predicted naps in the second variant. *)
Definition V2_laterWindow (ageMonths : Z) : Z :=
  let std := V2.getStandardByMonth ageMonths in
  Z.min (maxWake std) (calculateInterpolatedWakeWindow ageMonths std + 15).

(** The wake window before bed of the first variant, before the adjustments
    for the last event. *)
Definition V1_baseBedtimeWindow (ageMonths : Z) : Z :=
  let std := V1.getStandardByMonth ageMonths in
  if Mode_eqb (mode std) clock then bedtimeWindow std
  else round (inject_Z (bedtimeWindow std) - 30 + 60 * ageProgress ageMonths std)%Q.

(** The locals end with an event and the current time is the end of it. *)
Definition currentIsLastEnd (st : Locals) : Prop :=
  exists front prev,
    l_events st = (front ++ [prev])%list /\ l_currentTime st = endOf prev.


(** The check that the wake window before bed stays near the band's window:
    within 30 minutes in the first variant and 15 in the second, and equal to
    it in clock mode. *)
Definition bedtimeWindowNear (ageMonths : Z) : bool :=
  let a := V1.getStandardByMonth ageMonths in
  let b := V2.getStandardByMonth ageMonths in
  (Z.abs (V1_baseBedtimeWindow ageMonths - bedtimeWindow a) <=? 30)
  && (Z.abs (V2.bedtimeWakeWindow ageMonths - bedtimeWindow b) <=? 15)
  && (if Mode_eqb (mode a) clock
      then V1_baseBedtimeWindow ageMonths =? bedtimeWindow a else true)
  && (if Mode_eqb (mode b) clock
      then V2.bedtimeWakeWindow ageMonths =? bedtimeWindow b else true).

(** ** Proof steps used throughout *)

(** Splits on every condition of an [if] in the goal. *)
Ltac case_ifs :=
  repeat match goal with
         | |- context [if ?c then _ else _] => destruct c
         end.

(** Splits on every integer comparison in the goal, dropping the cases the
    hypotheses exclude. *)
Ltac case_leb :=
  repeat match goal with
         | |- context [?a <=? ?b] => destruct (Z.leb_spec a b); try lia
         end.

(** ** Checking a decidable property on a whole interval *)

Section Enumeration.

Variable P : Z -> bool.

Lemma countFrom_In : forall n lo z,
  lo <= z < lo + Z.of_nat n -> In z (countFrom lo n).
Proof.
  induction n as [|n IH]; intros lo z Hz.
  - simpl in Hz. lia.
  - simpl. destruct (Z.eq_dec lo z) as [->|Hne]; [now left|].
    right. apply IH. lia.
Qed.

Lemma forallb_interval : forall lo n,
  forallb P (countFrom lo n) = true ->
  forall z, lo <= z < lo + Z.of_nat n -> P z = true.
Proof.
  intros lo n Hall z Hz.
  rewrite forallb_forall in Hall. apply Hall, countFrom_In, Hz.
Qed.

End Enumeration.

Lemma forallb_rectangle (P : Z -> Z -> bool) (nh nm : nat) :
  forallb (fun h => forallb (P h) (countFrom 0 nm)) (countFrom 0 nh) = true ->
  forall h m, 0 <= h < Z.of_nat nh -> 0 <= m < Z.of_nat nm -> P h m = true.
Proof.
  intros Hall h m Hh Hm.
  pose proof (forallb_interval _ 0 nh Hall h ltac:(lia)) as Hrow.
  exact (forallb_interval _ 0 nm Hrow m ltac:(lia)).
Qed.

(** ** Time arithmetic *)

Section TimeArithmetic.

Lemma timeToMinutes_blank : timeToMinutes "" = Int 0.
Proof. reflexivity. Qed.

Lemma hhmm_not_blank (h m : Z) : hhmm h m <> "".
Proof. unfold hhmm, twoDigits. discriminate. Qed.

Lemma timeToMinutes_hhmm (h m : Z) :
  0 <= h < 24 -> 0 <= m < 60 -> timeToMinutes (hhmm h m) = Int (60 * h + m).
Proof.
  intros Hh Hm.
  assert (H : readsBack h m = true).
  { apply (forallb_rectangle readsBack 24 60); [vm_compute; reflexivity | lia | lia]. }
  unfold readsBack in H.
  destruct (timeToMinutes (hhmm h m)) as [z|]; [|discriminate].
  apply Z.eqb_eq in H. now subst.
Qed.

(** C3, as the code has it: [minutesToTime] adds or takes away one day at
    most, so it renders the minute of the day [m mod 1440] as zero-padded
    "HH:MM" for [m] from one day below zero up to two days, provided the
    remainder [m % 60] is not negative ([m >= 0], or [m] a whole number of
    hours). *)
Theorem minutesToTime_single_wrap (m : Z) :
  -1440 <= m < 2880 -> (0 <= m \/ m mod 60 = 0) ->
  minutesToTime (Int m) = clockText (m mod 1440).
Proof.
  intros Hrange Hrem.
  assert (H : rendersWrapped m = true).
  { apply (forallb_interval rendersWrapped (-1440) 4320);
      [vm_compute; reflexivity | lia]. }
  unfold rendersWrapped in H.
  replace ((0 <=? m) || (m mod 60 =? 0)) with true in H.
  - now apply String.eqb_eq.
  - symmetry. apply orb_true_iff.
    destruct Hrem as [Hpos|Hz]; [left; now apply Z.leb_le | right; now apply Z.eqb_eq].
Qed.

Lemma minutesToTime_single_wrap_witness :
  minutesToTime (Int 1500) = clockText (1500 mod 1440).
Proof. apply (minutesToTime_single_wrap 1500); [lia | left; lia]. Defined.

(** C3 as stated fails: two days are not brought back into the day. *)
Lemma minutesToTime_two_days :
  minutesToTime (Int 2880) = "24:00" /\ clockText (2880 mod 1440) = "00:00"
  /\ minutesToTime (Int 2880) <> clockText (2880 mod 1440).
Proof. split; [reflexivity | split; [reflexivity | vm_compute; discriminate]]. Qed.

(** A negative number of minutes that is not a whole number of hours keeps
    its sign in the minutes field. *)
Example minutesToTime_half_hour_before_midnight :
  minutesToTime (Int (-30)) = "23:-30".
Proof. reflexivity. Qed.

(** C6, as the code has it: the round trip of the unpadded text [h:m] is the
    zero-padded text "HH:MM"; the round trip of the zero-padded text is the
    identity; the two texts are the same exactly when both [h] and [m] have
    two digits. *)
Theorem roundtrip_zero_padded (h m : Z) :
  0 <= h < 24 -> 0 <= m < 60 ->
  minutesToTime (timeToMinutes (unpadded h m)) = hhmm h m
  /\ minutesToTime (timeToMinutes (hhmm h m)) = hhmm h m
  /\ (unpadded h m = hhmm h m <-> 10 <= h /\ 10 <= m).
Proof.
  intros Hh Hm.
  assert (H : roundTrips h m = true).
  { apply (forallb_rectangle roundTrips 24 60); [vm_compute; reflexivity | lia | lia]. }
  unfold roundTrips in H.
  apply andb_true_iff in H as [H Hsame]. apply andb_true_iff in H as [Hu Hp].
  apply String.eqb_eq in Hu, Hp. apply Bool.eqb_prop in Hsame.
  split; [exact Hu | split; [exact Hp | split]].
  - intros He. apply String.eqb_eq in He. rewrite He in Hsame.
    symmetry in Hsame. apply andb_true_iff in Hsame. lia.
  - intros He. apply String.eqb_eq. rewrite Hsame.
    apply andb_true_iff. lia.
Qed.

Lemma roundtrip_zero_padded_witness :
  minutesToTime (timeToMinutes (unpadded 5 7)) = hhmm 5 7
  /\ minutesToTime (timeToMinutes (hhmm 5 7)) = hhmm 5 7
  /\ (unpadded 5 7 = hhmm 5 7 <-> 10 <= 5 /\ 10 <= 7).
Proof. apply (roundtrip_zero_padded 5 7); lia. Defined.

(** C6 as stated fails: the unpadded text does not come back. *)
Lemma roundtrip_unpadded_differs :
  0 <= 5 < 24 /\ 0 <= 7 < 60
  /\ unpadded 5 7 = "5:7"
  /\ minutesToTime (timeToMinutes (unpadded 5 7)) = "05:07"
  /\ minutesToTime (timeToMinutes (unpadded 5 7)) <> unpadded 5 7.
Proof.
  split; [lia | split; [lia | split; [reflexivity | split; [reflexivity |]]]].
  vm_compute. discriminate.
Qed.

End TimeArithmetic.

(** ** The interpolated wake window *)

Section Interpolation.

Lemma round_mono (x y : Q) : (x <= y)%Q -> round x <= round y.
Proof.
  intros Hxy. unfold round. apply Qfloor_resp_le.
  apply Qplus_le_compat; [exact Hxy | apply Qle_refl].
Qed.

Lemma round_comp (x y : Q) : (x == y)%Q -> round x = round y.
Proof. intros Hxy. unfold round. apply Qfloor_comp. now rewrite Hxy. Qed.

Lemma round_integer (z : Z) : round (inject_Z z) = z.
Proof.
  unfold round, Qfloor, Qplus, inject_Z. simpl.
  symmetry. apply Z.div_unique with (r := 1); lia.
Qed.

Variable std : SleepStandard.

Lemma interpolated_unfold (month : Z) :
  rangeStart std <> rangeEnd std ->
  calculateInterpolatedWakeWindow month std = round (interpolate std month).
Proof.
  intros Hne. unfold calculateInterpolatedWakeWindow.
  destruct (Z.eqb_spec (rangeStart std) (rangeEnd std)); [contradiction | reflexivity].
Qed.

Lemma interpolated_degenerate (month : Z) :
  rangeStart std = rangeEnd std ->
  calculateInterpolatedWakeWindow month std = maxWake std.
Proof.
  intros He. unfold calculateInterpolatedWakeWindow.
  now rewrite He, Z.eqb_refl.
Qed.

Lemma interpolate_mono (a b : Z) :
  rangeStart std < rangeEnd std -> minWake std <= maxWake std -> a <= b ->
  (interpolate std a <= interpolate std b)%Q.
Proof.
  intros Hr Hw Hab. unfold interpolate.
  apply Qplus_le_compat; [apply Qle_refl|].
  assert (Hspan : (0 <= inject_Z (maxWake std - minWake std))%Q).
  { change 0%Q with (inject_Z 0). rewrite <- Zle_Qle. lia. }
  assert (Hinv : (0 <= / inject_Z (rangeEnd std - rangeStart std))%Q).
  { apply Qinv_le_0_compat. change 0%Q with (inject_Z 0). rewrite <- Zle_Qle. lia. }
  rewrite !(Qmult_comm (inject_Z (maxWake std - minWake std))).
  apply Qmult_le_compat_r; [|exact Hspan].
  unfold Qdiv. apply Qmult_le_compat_r; [|exact Hinv].
  rewrite <- Zle_Qle. lia.
Qed.

Lemma interpolate_lower :
  (interpolate std (rangeStart std) == inject_Z (minWake std))%Q.
Proof.
  unfold interpolate. rewrite Z.sub_diag.
  unfold Qdiv. change (inject_Z 0) with 0%Q. ring.
Qed.

Lemma interpolate_upper :
  rangeStart std <> rangeEnd std ->
  (interpolate std (rangeEnd std) == inject_Z (maxWake std))%Q.
Proof.
  intros Hne. unfold interpolate.
  assert (Hd : ~ (inject_Z (rangeEnd std - rangeStart std) == 0)%Q).
  { change 0%Q with (inject_Z 0). rewrite inject_Z_injective. lia. }
  unfold Qdiv. rewrite Qmult_inv_r by exact Hd.
  unfold Z.sub at 1. rewrite inject_Z_plus, inject_Z_opp. ring.
Qed.

(** C7: inside a band whose bounds and wake windows are in order, the
    interpolated wake window does not decrease with age, it is [minWake] at
    the lower bound of a proper range and [maxWake] at the upper bound; when
    the two bounds coincide it is [maxWake] at every age. *)
Theorem interpolated_wake_window_shape :
  rangeStart std <= rangeEnd std -> minWake std <= maxWake std ->
  (forall a b, a <= b ->
     calculateInterpolatedWakeWindow a std <= calculateInterpolatedWakeWindow b std)
  /\ (rangeStart std < rangeEnd std ->
      calculateInterpolatedWakeWindow (rangeStart std) std = minWake std)
  /\ calculateInterpolatedWakeWindow (rangeEnd std) std = maxWake std
  /\ (rangeStart std = rangeEnd std ->
      forall month, calculateInterpolatedWakeWindow month std = maxWake std).
Proof.
  intros Hr Hw.
  destruct (Z.eq_dec (rangeStart std) (rangeEnd std)) as [He|Hne].
  - split; [|split; [|split]].
    + intros a b _. rewrite !interpolated_degenerate by exact He. lia.
    + lia.
    + now apply interpolated_degenerate.
    + intros _ month. now apply interpolated_degenerate.
  - split; [|split; [|split]].
    + intros a b Hab. rewrite !interpolated_unfold by exact Hne.
      apply round_mono, interpolate_mono; lia.
    + intros _. rewrite interpolated_unfold by exact Hne.
      rewrite (round_comp _ _ interpolate_lower). apply round_integer.
    + rewrite interpolated_unfold by exact Hne.
      rewrite (round_comp _ _ (interpolate_upper Hne)). apply round_integer.
    + intros He. contradiction.
Qed.

End Interpolation.

Lemma interpolated_wake_window_shape_witness :
  let std := V1.SLEEP_STANDARDS V1.k19_36 in
  (forall a b, a <= b ->
     calculateInterpolatedWakeWindow a std <= calculateInterpolatedWakeWindow b std)
  /\ (rangeStart std < rangeEnd std ->
      calculateInterpolatedWakeWindow (rangeStart std) std = minWake std)
  /\ calculateInterpolatedWakeWindow (rangeEnd std) std = maxWake std
  /\ (rangeStart std = rangeEnd std ->
      forall month, calculateInterpolatedWakeWindow month std = maxWake std).
Proof.
  apply (interpolated_wake_window_shape (V1.SLEEP_STANDARDS V1.k19_36)); simpl; lia.
Defined.

(** Every band of both tables has a proper age range and wake windows in
    order, so the shape above holds in each of them. *)
Lemma bands_in_order (month : Z) :
  let a := V1.getStandardByMonth month in
  let b := V2.getStandardByMonth month in
  rangeStart a < rangeEnd a /\ minWake a <= maxWake a
  /\ rangeStart b < rangeEnd b /\ minWake b <= maxWake b.
Proof.
  unfold V1.getStandardByMonth, V2.getStandardByMonth.
  case_ifs;
    simpl; lia.
Qed.

(** ** The nap log *)

Section NapLogProofs.

Lemma insertNap_perm (x : NapEntry) (l : list NapEntry) :
  Permutation (insertNap x l) (x :: l).
Proof.
  induction l as [|y r IH]; cbn [insertNap]; [apply Permutation_refl|].
  destruct (gtb (compareStart x y) (Int 0)); [|apply Permutation_refl].
  eapply perm_trans; [apply perm_skip, IH | apply perm_swap].
Qed.

Lemma sortNaps_perm (l : list NapEntry) : Permutation (sortNaps l) l.
Proof.
  induction l as [|x r IH]; cbn [sortNaps fold_right]; [apply perm_nil|].
  eapply perm_trans; [apply insertNap_perm | apply perm_skip, IH].
Qed.

Lemma startLe_trans (a b c : NapEntry) : startLe a b -> startLe b c -> startLe a c.
Proof.
  intros (x & y & Hx & Hy & Hxy) (y' & z & Hy' & Hz & Hyz).
  rewrite Hy in Hy'. injection Hy' as <-.
  exists x, z. repeat split; trivial. lia.
Qed.

Lemma compareStart_cases (x y : NapEntry) :
  readsAsMinutes (startTime x) -> readsAsMinutes (startTime y) ->
  if gtb (compareStart x y) (Int 0) then startLe y x else startLe x y.
Proof.
  intros [a Ha] [b Hb]. unfold compareStart, gtb, ltb, sub. rewrite Ha, Hb.
  destruct (Z.ltb_spec 0 (a - b)).
  - exists b, a. repeat split; trivial. lia.
  - exists a, b. repeat split; trivial. lia.
Qed.

Lemma insertNap_sorted (x : NapEntry) (l : list NapEntry) :
  readsAsMinutes (startTime x) ->
  Forall (fun n => readsAsMinutes (startTime n)) l ->
  StronglySorted startLe l -> StronglySorted startLe (insertNap x l).
Proof.
  intros Hx Hl Hs. induction Hs as [|y r Hr IH Hy]; cbn [insertNap].
  - constructor; [constructor | constructor].
  - inversion Hl as [|? ? Hy' Hr']; subst.
    pose proof (compareStart_cases x y Hx Hy') as Hc.
    destruct (gtb (compareStart x y) (Int 0)).
    + constructor; [now apply IH|].
      apply (Permutation_Forall (Permutation_sym (insertNap_perm x r))).
      constructor; assumption.
    + constructor; [now constructor|].
      constructor; [exact Hc|].
      eapply Forall_impl; [|exact Hy].
      intros z Hz. eapply startLe_trans; eassumption.
Qed.

Lemma sortNaps_sorted (l : list NapEntry) :
  Forall (fun n => readsAsMinutes (startTime n)) l ->
  StronglySorted startLe (sortNaps l).
Proof.
  induction 1 as [|x r Hx Hr IH]; cbn [sortNaps fold_right]; [constructor|].
  apply insertNap_sorted; trivial.
  apply (Permutation_Forall (Permutation_sym (sortNaps_perm r))). exact Hr.
Qed.

Lemma addNap_filled (now : Z) (st : NapLog) :
  napStart st <> "" -> napEnd st <> "" ->
  addNap now st =
  {| log_naps := sortNaps (log_naps st ++ [stagedEntry now st]);
     napStart := ""; napEnd := "" |}.
Proof.
  intros Hs He. unfold addNap.
  destruct (String.eqb_spec (napStart st) ""); [contradiction|].
  destruct (String.eqb_spec (napEnd st) ""); [contradiction|].
  reflexivity.
Qed.

(** C8: with a blank start or end, [addNap] changes nothing; with both
    filled in by times of day, the new log holds the new entry, is a
    rearrangement of the old log with that entry, and is in ascending order
    of start time. *)
Theorem addNap_blank_or_sorted (now : Z) (st : NapLog) :
  (napStart st = "" \/ napEnd st = "" -> addNap now st = st)
  /\ (napStart st <> "" -> napEnd st <> "" ->
      readsAsMinutes (napStart st) ->
      Forall (fun n => readsAsMinutes (startTime n)) (log_naps st) ->
      In (stagedEntry now st) (log_naps (addNap now st))
      /\ Permutation (log_naps (addNap now st)) (log_naps st ++ [stagedEntry now st])
      /\ StronglySorted startLe (log_naps (addNap now st))
      /\ napStart (addNap now st) = "" /\ napEnd (addNap now st) = "").
Proof.
  split.
  - intros Hblank. unfold addNap.
    destruct Hblank as [-> | ->]; simpl; [reflexivity|].
    now rewrite orb_true_r.
  - intros Hs He Hnew Hold. rewrite (addNap_filled now st Hs He). simpl.
    split; [|split; [|split; [|split; reflexivity]]].
    + apply (Permutation_in _ (Permutation_sym (sortNaps_perm _))).
      apply in_or_app. right. now left.
    + apply sortNaps_perm.
    + apply sortNaps_sorted. apply Forall_app. split; [exact Hold|].
      constructor; [exact Hnew | constructor].
Qed.

Lemma addNap_blank_or_sorted_witness :
  addNap 5 blankLog = blankLog
  /\ (In (stagedEntry 5 sampleLog) (log_naps (addNap 5 sampleLog))
      /\ Permutation (log_naps (addNap 5 sampleLog))
           (log_naps sampleLog ++ [stagedEntry 5 sampleLog])
      /\ StronglySorted startLe (log_naps (addNap 5 sampleLog))
      /\ napStart (addNap 5 sampleLog) = "" /\ napEnd (addNap 5 sampleLog) = "").
Proof.
  split.
  - apply (addNap_blank_or_sorted 5 blankLog). left. reflexivity.
  - apply (addNap_blank_or_sorted 5 sampleLog).
    + discriminate.
    + discriminate.
    + exists 540. reflexivity.
    + constructor; [exists 720; reflexivity | constructor].
Defined.

(** C9: the entry built from well-formed "HH:MM" start and end times has a
    duration of at least 0 and less than 1440 minutes: end minus start, plus
    1440 when that difference is negative. *)
Theorem addNap_duration_in_day (now : Z) (st : NapLog) (h1 m1 h2 m2 : Z) :
  0 <= h1 < 24 -> 0 <= m1 < 60 -> 0 <= h2 < 24 -> 0 <= m2 < 60 ->
  napStart st = hhmm h1 m1 -> napEnd st = hhmm h2 m2 ->
  exists d,
    In {| id := toString (Int now); startTime := hhmm h1 m1; endTime := hhmm h2 m2;
          duration := Int d |} (log_naps (addNap now st))
    /\ 0 <= d < 1440
    /\ d = (let diff := (60 * h2 + m2) - (60 * h1 + m1) in
            if diff <? 0 then diff + 1440 else diff).
Proof.
  intros Hh1 Hm1 Hh2 Hm2 Hs He.
  set (diff := (60 * h2 + m2) - (60 * h1 + m1)).
  exists (if diff <? 0 then diff + 1440 else diff).
  split; [|split; [|reflexivity]].
  - rewrite addNap_filled by (rewrite ?Hs, ?He; apply hhmm_not_blank).
    cbn [log_naps]. apply (Permutation_in _ (Permutation_sym (sortNaps_perm _))).
    apply in_or_app. right. left.
    unfold stagedEntry, getDuration. rewrite Hs, He.
    rewrite !timeToMinutes_hhmm by assumption.
    cbn [sub ltb add]. fold diff. now destruct (diff <? 0).
  - destruct (Z.ltb_spec diff 0); subst diff; lia.
Qed.

Lemma addNap_duration_in_day_witness :
  exists d,
    In {| id := toString (Int 5); startTime := hhmm 23 30; endTime := hhmm 0 15;
          duration := Int d |}
       (log_naps (addNap 5 {| log_naps := []; napStart := "23:30"; napEnd := "00:15" |}))
    /\ 0 <= d < 1440
    /\ d = (let diff := (60 * 0 + 15) - (60 * 23 + 30) in
            if diff <? 0 then diff + 1440 else diff).
Proof.
  apply (addNap_duration_in_day 5
           {| log_naps := []; napStart := "23:30"; napEnd := "00:15" |} 23 30 0 15);
    try lia; reflexivity.
Defined.

End NapLogProofs.

(** ** Scenarios of the two variants *)

Section Scenarios.

(** C1, as the code has it: a wake event at 05:00; one predicted nap by the
    capped early-nap strategy, starting at 11:00 (05:00 plus the band's
    maximum wake window of 360 minutes), 75 minutes long, with severity
    warning and a warning about ending the nap; a bedtime event whose wake
    window is the band's maximum of 360 minutes, at 18:15 (12:15 plus 360
    minutes). *)
Theorem scenario1_capped_nap :
  exists w n b,
    V1.events scenario1 = [w; n; b]
    /\ (type w = wake /\ evStart w = "05:00" /\ isPrediction w = false)
    /\ (type n = nap /\ isPrediction n = true
        /\ title n = "Strategischer Mittagsschlaf (Capping)"
        /\ maxWake (V1.standard scenario1) = 360
        /\ evStart n = addMinutes "05:00" (maxWake (V1.standard scenario1))
        /\ evStart n = "11:00"
        /\ evEnd n = Some "12:15"
        /\ getDuration "11:00" "12:15" = Int 75
        /\ alertLevel n = Some warning)
    /\ (V1.warnings scenario1 = [V1.earlyWakeWarning; V1.cappingWarning]
        /\ includes "Capping" V1.earlyWakeWarning = true
        /\ includes "nach 75 Minuten beenden" V1.cappingWarning = true)
    /\ (type b = bedtime
        /\ V1.finalWakeWindow 24 (V1.planNaps 24 "05:00" []) = maxWake (V1.standard scenario1)
        /\ evStart b = addMinutes "12:15" 360
        /\ evStart b = "18:15").
Proof.
  do 3 eexists. split; [vm_compute; reflexivity|].
  vm_compute. repeat split.
Qed.

(** C1 as stated fails: the bedtime of the scenario is not 17:15. *)
Lemma scenario1_bedtime_not_1715 :
  exists b, lastOf (V1.events scenario1) = Some b
            /\ type b = bedtime /\ evStart b = "18:15" /\ evStart b <> "17:15".
Proof.
  eexists. split; [vm_compute; reflexivity|].
  split; [reflexivity | split; [reflexivity | discriminate]].
Qed.

(** C5: the two variants of [scheduleData] give different schedules on some
    inputs, and each of the four policy differences shows in the output:
    the capping branch (24 months, 05:00), the widening of the wake window
    (1 month, 08:00), the reduction after a short nap (5 months, a nap of 30
    minutes) and the too-long threshold (5 months, a nap of 130 minutes). *)
Theorem variants_differ :
  (exists age wakeTime l,
     times (V1.events (V1.scheduleData age wakeTime l))
     <> times (V2.events (V2.scheduleData age wakeTime l)))
  /\ (map evStart (V1.events (V1.scheduleData 24 "05:00" [])) = ["05:00"; "11:00"; "18:15"]
      /\ map evStart (V2.events (V2.scheduleData 24 "05:00" [])) = ["05:00"; "12:30"; "19:30"])
  /\ (map evStart (V1.events (V1.scheduleData 1 "08:00" []))
        = ["08:00"; "09:00"; "12:00"; "15:00"; "18:00"; "19:42"]
      /\ map evStart (V2.events (V2.scheduleData 1 "08:00" []))
        = ["08:00"; "09:00"; "11:45"; "14:30"; "17:15"; "19:10"])
  /\ (map evStart (V1.events (V1.scheduleData 5 "07:00" shortNapLog))
        = ["07:00"; "09:00"; "11:06"; "15:06"; "18:06"]
      /\ map evStart (V2.events (V2.scheduleData 5 "07:00" shortNapLog))
        = ["07:00"; "09:00"; "11:12"; "14:57"; "18:00"])
  /\ (map alertLevel (firstn 2 (V1.events (V1.scheduleData 5 "07:00" longNapLog)))
        = [None; Some warning]
      /\ map alertLevel (firstn 2 (V2.events (V2.scheduleData 5 "07:00" longNapLog)))
        = [None; Some normal]).
Proof.
  split.
  - exists 24, "05:00", []. vm_compute. discriminate.
  - vm_compute. repeat split.
Qed.

End Scenarios.

(** ** Invariants of the two loops *)

Section LoopInvariants.

Variable I : Locals -> Prop.

Lemma forEach_inv (body : Locals -> NapEntry -> Z -> Locals) :
  (forall st n i, I st -> I (body st n i)) ->
  forall l st i, I st -> I (forEach body st i l).
Proof.
  intros Hbody l. induction l as [|n r IH]; intros st i Hst; simpl; [exact Hst|].
  apply IH, Hbody, Hst.
Qed.

Lemma forLoop_inv (body : Locals -> Z -> Locals) :
  (forall st i, I st -> I (body st i)) ->
  forall count i st, I st -> I (forLoop body count i st).
Proof.
  intros Hbody count. induction count as [|k IH]; intros i st Hst; simpl; [exact Hst|].
  apply IH, Hbody, Hst.
Qed.

End LoopInvariants.

Lemma includes_app_r (needle a b : string) :
  includes needle b = true -> includes needle (a ++ b) = true.
Proof.
  intros Hb. induction a as [|c a IH]; [exact Hb|].
  change (String c a ++ b) with (String c (a ++ b)).
  cbn [includes]. rewrite IH. apply orb_true_r.
Qed.

Lemma latest_not_blank (month : Z) :
  latestNapEndTime (V1.getStandardByMonth month) <> ""
  /\ latestNapEndTime (V2.getStandardByMonth month) <> "".
Proof.
  unfold V1.getStandardByMonth, V2.getStandardByMonth.
  case_ifs;
    split; discriminate.
Qed.

(** ** The final band *)

Section FinalBand.

Variables (age : Z) (wakeTime : string).
Hypothesis Hage : 36 < age.

Lemma V1_final_band : V1.getStandardByMonth age = V1.SLEEP_STANDARDS V1.k36plus.
Proof.
  unfold V1.getStandardByMonth.
  case_leb.
  reflexivity.
Qed.

Lemma V2_final_band : V2.getStandardByMonth age = V2.SLEEP_STANDARDS V2.k36plus.
Proof.
  unfold V2.getStandardByMonth.
  case_leb.
  reflexivity.
Qed.

Lemma V1_planNaps_final_band :
  l_events (V1.planNaps age wakeTime []) = [V1.wakeEvent wakeTime].
Proof. unfold V1.planNaps. rewrite V1_final_band. reflexivity. Qed.

Lemma V2_planNaps_final_band :
  l_events (V2.planNaps age wakeTime []) = [V2.wakeEvent wakeTime].
Proof. unfold V2.planNaps. rewrite V2_final_band. reflexivity. Qed.

End FinalBand.

Lemma V1_bedtimeEvent_type (age : Z) (st : Locals) :
  type (V1.bedtimeEvent age st) = bedtime.
Proof.
  unfold V1.bedtimeEvent.
  case_ifs; reflexivity.
Qed.

Lemma V2_bedtimeEvent_type (age : Z) (st : Locals) :
  type (V2.bedtimeEvent age st) = bedtime.
Proof.
  unfold V2.bedtimeEvent.
  case_ifs; reflexivity.
Qed.

(** C10: for an age in the final band (above 36 months, no nap planned) and
    an empty nap log, both variants return two events, the wake event and
    then the bedtime event, and no nap. *)
Theorem final_band_two_events (age : Z) (wakeTime : string) :
  36 < age ->
  (naps (V1.getStandardByMonth age) = 0
   /\ exists b, V1.events (V1.scheduleData age wakeTime []) = [V1.wakeEvent wakeTime; b]
                /\ type b = bedtime)
  /\ (naps (V2.getStandardByMonth age) = 0
      /\ exists b, V2.events (V2.scheduleData age wakeTime []) = [V2.wakeEvent wakeTime; b]
                   /\ type b = bedtime).
Proof.
  intros Hage. split; split.
  - now rewrite V1_final_band.
  - exists (V1.bedtimeEvent age (V1.planNaps age wakeTime [])).
    split; [|apply V1_bedtimeEvent_type].
    unfold V1.scheduleData. cbn [V1.events].
    now rewrite V1_planNaps_final_band.
  - now rewrite V2_final_band.
  - exists (V2.bedtimeEvent age (V2.planNaps age wakeTime [])).
    split; [|apply V2_bedtimeEvent_type].
    unfold V2.scheduleData. cbn [V2.events].
    now rewrite V2_planNaps_final_band.
Qed.

Lemma final_band_two_events_witness :
  (naps (V1.getStandardByMonth 40) = 0
   /\ exists b, V1.events (V1.scheduleData 40 "07:00" []) = [V1.wakeEvent "07:00"; b]
                /\ type b = bedtime)
  /\ (naps (V2.getStandardByMonth 40) = 0
      /\ exists b, V2.events (V2.scheduleData 40 "07:00" []) = [V2.wakeEvent "07:00"; b]
                   /\ type b = bedtime).
Proof. apply (final_band_two_events 40 "07:00"). lia. Defined.

(** ** The bedtime event *)

Section Bedtime.

Variables (age : Z) (wakeTime : string) (l : list NapEntry).

Lemma V1_events_split :
  V1.events (V1.scheduleData age wakeTime l)
  = (l_events (V1.planNaps age wakeTime l)
     ++ [V1.bedtimeEvent age (V1.planNaps age wakeTime l)])%list.
Proof. reflexivity. Qed.

Lemma V2_events_split :
  V2.events (V2.scheduleData age wakeTime l)
  = (l_events (V2.planNaps age wakeTime l)
     ++ [V2.bedtimeEvent age (V2.planNaps age wakeTime l)])%list.
Proof. reflexivity. Qed.

Lemma V1_capping_window (st : Locals) :
  V1.isStrategicCapping age st = true -> V1.finalWakeWindow age st = 360.
Proof. intros Hc. unfold V1.finalWakeWindow. now rewrite Hc. Qed.

(** C4, as the code has it.  First variant: the bedtime event starts at the
    current time plus the bedtime wake window; after a capped nap it is the
    target bedtime with severity warning whatever the instant; otherwise its
    severity is warning with the early-bedtime description before 18:00,
    critical with the overtiredness reasoning after 21:00, and normal in
    between.  Second variant: a computed bedtime after 06:00 and before 18:00
    is replaced by 18:00 with severity warning; after 21:00 the event starts
    at the computed time with severity critical; otherwise it starts at the
    computed time with severity normal. *)
Theorem bedtime_classification :
  (let st := V1.planNaps age wakeTime l in
   let b := V1.bedtimeEvent age st in
   let t := timeToMinutes (evStart b) in
   lastOf (V1.events (V1.scheduleData age wakeTime l)) = Some b
   /\ type b = bedtime
   /\ evStart b = addMinutes (l_currentTime st) (V1.finalWakeWindow age st)
   /\ (V1.isStrategicCapping age st = true ->
       title b = "Ziel-Bettzeit" /\ alertLevel b = Some warning)
   /\ (V1.isStrategicCapping age st = false ->
       (ltb t (Int 1080) = true ->
        alertLevel b = Some warning /\ evDescription b = "Ausgleich für frühen Start")
       /\ (gtb t (Int 1260) = true ->
           alertLevel b = Some critical
           /\ reasoning b = "Wachfenster wurde sehr lang. Risiko, dass das Kind überdreht.")
       /\ (ltb t (Int 1080) = false -> gtb t (Int 1260) = false ->
           alertLevel b = Some normal)))
  /\ (let st := V2.planNaps age wakeTime l in
      let b := V2.bedtimeEvent age st in
      let computed := addMinutes (l_currentTime st) (V2.bedtimeWakeWindow age) in
      let t := timeToMinutes computed in
      lastOf (V2.events (V2.scheduleData age wakeTime l)) = Some b
      /\ type b = bedtime
      /\ (gtb t (Int 360) = true -> ltb t (Int 1080) = true ->
          evStart b = "18:00" /\ alertLevel b = Some warning)
      /\ (gtb t (Int 1260) = true ->
          evStart b = computed /\ alertLevel b = Some critical)
      /\ ((gtb t (Int 360) = false \/ ltb t (Int 1080) = false) ->
          gtb t (Int 1260) = false ->
          evStart b = computed /\ alertLevel b = Some normal)).
Proof.
  assert (Hlast : forall (A : Type) (xs : list A) (x : A), lastOf (xs ++ [x])%list = Some x).
  { intros A xs x. unfold lastOf. rewrite length_app. simpl.
    replace (List.length xs + 1 - 1)%nat with (List.length xs) by lia.
    rewrite nth_error_app2 by lia. now rewrite Nat.sub_diag. }
  assert (Hnum : forall t, gtb t (Int 1260) = true -> ltb t (Int 1080) = false).
  { intros [z|]; unfold gtb, ltb; [|reflexivity].
    intros H. apply Z.ltb_lt in H. apply Z.ltb_ge. lia. }
  split.
  - cbv zeta. set (st := V1.planNaps age wakeTime l).
    split; [rewrite V1_events_split; apply Hlast|].
    split; [apply V1_bedtimeEvent_type|].
    unfold V1.bedtimeEvent.
    destruct (V1.isStrategicCapping age st) eqn:Hcap.
    + cbn [evStart title alertLevel]. rewrite (V1_capping_window st Hcap).
      repeat split; discriminate.
    + set (t := timeToMinutes (addMinutes (l_currentTime st) (V1.finalWakeWindow age st))).
      destruct (ltb t (Int 1080)) eqn:Hearly.
      * cbn [evStart alertLevel evDescription reasoning]. fold t. rewrite Hearly.
        split; [reflexivity|]. split; [discriminate|]. intros _.
        split; [now split|]. split; [|discriminate].
        intros Hlate. apply Hnum in Hlate. congruence.
      * destruct (gtb t (Int 1260)) eqn:Hlate;
          cbn [evStart alertLevel evDescription reasoning]; fold t;
          rewrite Hearly, Hlate;
          (split; [reflexivity|]); (split; [discriminate|]); intros _;
          repeat split; try discriminate; reflexivity.
  - cbv zeta. set (st := V2.planNaps age wakeTime l).
    split; [rewrite V2_events_split; apply Hlast|].
    split; [apply V2_bedtimeEvent_type|].
    unfold V2.bedtimeEvent.
    set (t := timeToMinutes (addMinutes (l_currentTime st) (V2.bedtimeWakeWindow age))).
    destruct (ltb t (Int 1080)) eqn:Hearly; destruct (gtb t (Int 360)) eqn:Hday;
      destruct (gtb t (Int 1260)) eqn:Hlate;
      try (apply Hnum in Hlate; congruence);
      cbn [andb evStart alertLevel];
      repeat split; try discriminate; try reflexivity;
      intros; repeat match goal with H : _ \/ _ |- _ => destruct H end;
      try discriminate; reflexivity.
Qed.

End Bedtime.

(** C4 as stated fails.  First variant, 24 months waking at 05:00: the
    bedtime 18:15 is neither before 18:00 nor after 21:00 and its severity is
    warning.  Second variant, 40 months waking at 05:00: the computed bedtime
    is 17:00 and the event starts at 18:00. *)
Lemma bedtime_not_classified_by_instant :
  (exists b, lastOf (V1.events scenario1) = Some b
             /\ evStart b = "18:15"
             /\ timeToMinutes (evStart b) = Int 1095
             /\ ltb (Int 1095) (Int 1080) = false /\ gtb (Int 1095) (Int 1260) = false
             /\ alertLevel b = Some warning /\ alertLevel b <> Some normal)
  /\ (exists b, lastOf (V2.events (V2.scheduleData 40 "05:00" [])) = Some b
                /\ l_currentTime (V2.planNaps 40 "05:00" []) = "05:00"
                /\ V2.bedtimeWakeWindow 40 = 720
                /\ addMinutes "05:00" 720 = "17:00"
                /\ evStart b = "18:00" /\ evStart b <> addMinutes "05:00" 720).
Proof.
  split; eexists; (split; [vm_compute; reflexivity|]); vm_compute;
    repeat split; discriminate.
Qed.

(** ** Predicted naps that end late *)

Section LateNaps.

Variable std : SleepStandard.
Hypothesis Hlatest : latestNapEndTime std <> "".

Lemma lateNote_mentions_bedtime (reason t : string) :
  includes "Gefahr für Bettzeit" (reason ++ V1.lateNote t) = true.
Proof.
  apply includes_app_r. unfold V1.lateNote.
  apply includes_app_r, includes_app_r. reflexivity.
Qed.

Lemma lateNapWarning_mentions_bedtime (k : Z) (latest : string) :
  includes "Bettzeit" (V2.lateNapWarning k latest) = true.
Proof.
  unfold V2.lateNapWarning.
  do 4 apply includes_app_r. reflexivity.
Qed.

Lemma V1_inv_observedNap (st : Locals) (n : NapEntry) (i : Z) :
  V1_inv std st -> V1_inv std (V1.observedNap std st n i).
Proof.
  intros [He Hw]. unfold V1.observedNap.
  destruct (if ltb (duration n) (Int 45) then _ else _) as [reason alert].
  split; cbn [l_events l_warnings]; [|exact Hw].
  apply Forall_app. split; [exact He|].
  constructor; [|constructor].
  intros (_ & Hpred & _). discriminate.
Qed.

Lemma V1_inv_shortNapAdjust (l : list NapEntry) (st : Locals) :
  V1_inv std st -> V1_inv std (V1.shortNapAdjust l st).
Proof.
  intros [He Hw]. unfold V1.shortNapAdjust.
  destruct (lastOf l) as [lastNap|]; [|now split].
  destruct (ltb (duration lastNap) (Int 45)); [|now split].
  split; cbn [l_events l_warnings]; [exact He|].
  apply incl_app; [exact Hw|].
  intros w [<-|[]]. right. now left.
Qed.

Lemma V1_placeNap_pushed (isToddler : bool) (st : Locals) (k : Z) :
  incl (V1.notePushed (V1.placeNap std isToddler st k)) [V1.cappingWarning].
Proof.
  unfold V1.placeNap.
  case_ifs;
    cbn [V1.notePushed]; auto using incl_refl, incl_nil_l.
Qed.

Lemma V1_inv_predictNap (isToddler : bool) (st : Locals) (i : Z) :
  V1_inv std st -> V1_inv std (V1.predictNap std isToddler st i).
Proof.
  intros [He Hw]. unfold V1.predictNap.
  set (note := V1.placeNap std isToddler st (l_napsPlanned st + i + 1)).
  set (finish := addMinutes (V1.predictedNapStart note) (V1.predictedDuration note)).
  split; cbn [l_events l_warnings].
  - apply Forall_app. split; [exact He|].
    constructor; [|constructor].
    intros (_ & _ & t & Ht & Hlate). cbn [evEnd] in Ht. injection Ht as <-.
    unfold flaggedInEvent. cbn [alertLevel reasoning].
    destruct (String.eqb_spec (latestNapEndTime std) ""); [contradiction|].
    rewrite Hlate. cbn [negb andb].
    split; [reflexivity | apply lateNote_mentions_bedtime].
  - apply incl_app; [exact Hw|].
    intros w Hin. apply (V1_placeNap_pushed isToddler st _) in Hin.
    destruct Hin as [<-|[]]. right. right. now left.
Qed.

Lemma flaggedInWarnings_more (ws more : list string) (e : PlannedEvent) :
  flaggedInWarnings std ws e -> flaggedInWarnings std (ws ++ more) e.
Proof.
  intros (Ha & k & Ht & Hin & Hm). split; [exact Ha|].
  exists k. repeat split; trivial. apply in_or_app. now left.
Qed.

Lemma V2_inv_more (evs : list PlannedEvent) (ws more : list string) :
  Forall (fun e => endsLate std e -> flaggedInWarnings std ws e) evs ->
  Forall (fun e => endsLate std e -> flaggedInWarnings std (ws ++ more) e) evs.
Proof.
  apply Forall_impl. intros e He Hlate. apply flaggedInWarnings_more, He, Hlate.
Qed.

Lemma V2_inv_observedNap (st : Locals) (n : NapEntry) (i : Z) :
  V2_inv std st -> V2_inv std (V2.observedNap std st n i).
Proof.
  intros He. unfold V2_inv, V2.observedNap.
  destruct (if ltb (duration n) (Int 45) then _ else _) as [[desc reason] alert].
  cbn [l_events l_warnings].
  apply Forall_app. split; [apply V2_inv_more, He|].
  constructor; [|constructor].
  intros (_ & Hpred & _). discriminate.
Qed.

Lemma V2_inv_shortNapAdjust (l : list NapEntry) (st : Locals) :
  V2_inv std st -> V2_inv std (V2.shortNapAdjust l st).
Proof.
  intros He. unfold V2.shortNapAdjust.
  destruct (lastOf l) as [lastNap|]; [|exact He].
  destruct (ltb (duration lastNap) (Int 45)); exact He.
Qed.

Lemma V2_inv_predictNap (age specific : Z) (st : Locals) (i : Z) :
  V2_inv std st -> V2_inv std (V2.predictNap age std specific st i).
Proof.
  intros He. unfold V2_inv, V2.predictNap. cbn [l_events l_warnings].
  apply Forall_app. split; [apply V2_inv_more, He|].
  constructor; [|constructor].
  intros (_ & _ & t & Ht & Hlate). cbn [evEnd] in Ht. injection Ht as <-.
  unfold isLater in Hlate. rewrite Hlate.
  destruct (String.eqb_spec (latestNapEndTime std) ""); [contradiction|].
  cbn [negb andb]. split; [reflexivity|].
  exists (l_napsPlanned st + i + 1). cbn [title].
  split; [reflexivity|]. split; [|apply lateNapWarning_mentions_bedtime].
  apply in_or_app. right. now left.
Qed.

End LateNaps.

Section LateNapsOfSchedule.

Variables (age : Z) (wakeTime : string) (l : list NapEntry).

Lemma V1_planNaps_inv :
  V1_inv (V1.getStandardByMonth age) (V1.planNaps age wakeTime l).
Proof.
  unfold V1.planNaps.
  apply forLoop_inv.
  { intros st i. apply V1_inv_predictNap, latest_not_blank. }
  apply V1_inv_shortNapAdjust.
  apply forEach_inv.
  { intros st n i. apply V1_inv_observedNap. }
  split; cbn [l_events l_warnings].
  - constructor; [|constructor]. intros (Hty & _). discriminate.
  - destruct (ltb (timeToMinutes wakeTime) (Int 360)); [|apply incl_nil_l].
    intros w [<-|[]]. now left.
Qed.

Lemma V2_planNaps_inv :
  V2_inv (V2.getStandardByMonth age) (V2.planNaps age wakeTime l).
Proof.
  unfold V2.planNaps.
  apply forLoop_inv.
  { intros st i. apply V2_inv_predictNap, latest_not_blank. }
  apply V2_inv_shortNapAdjust.
  apply forEach_inv.
  { intros st n i. apply V2_inv_observedNap. }
  constructor; [|constructor]. intros (Hty & _). discriminate.
Qed.

(** C2, as the code has it.  First variant: a predicted nap that ends later
    than the band's latest nap end has severity warning and a reasoning that
    mentions the risk to bedtime; the warnings of the result only ever hold
    the early-wake, short-nap and capping warnings.  Second variant: for such
    a nap the warnings of the result hold a warning that names the nap and
    mentions bedtime, and the nap event has no severity. *)
Theorem late_nap_end_flagged :
  (let r := V1.scheduleData age wakeTime l in
   (forall e, In e (V1.events r) -> endsLate (V1.standard r) e -> flaggedInEvent e)
   /\ incl (V1.warnings r) [V1.earlyWakeWarning; V1.shortNapWarning; V1.cappingWarning])
  /\ (let r := V2.scheduleData age wakeTime l in
      forall e, In e (V2.events r) -> endsLate (V2.standard r) e ->
                flaggedInWarnings (V2.standard r) (V2.warnings r) e).
Proof.
  split; cbv zeta.
  - destruct V1_planNaps_inv as [He Hw]. split; [|exact Hw].
    intros e Hin Hlate. cbn [V1.scheduleData V1.events] in Hin.
    apply in_app_or in Hin. destruct Hin as [Hin|[<-|[]]].
    + rewrite Forall_forall in He. now apply He.
    + destruct Hlate as (Hty & _). rewrite V1_bedtimeEvent_type in Hty. discriminate.
  - pose proof V2_planNaps_inv as He.
    intros e Hin Hlate. cbn [V2.scheduleData V2.events] in Hin.
    cbn [V2.scheduleData V2.standard V2.warnings] in *.
    apply in_app_or in Hin. destruct Hin as [Hin|[<-|[]]].
    + apply flaggedInWarnings_more.
      unfold V2_inv in He. rewrite Forall_forall in He. now apply He.
    + destruct Hlate as (Hty & _). rewrite V2_bedtimeEvent_type in Hty. discriminate.
Qed.

End LateNapsOfSchedule.

(** The fourth predicted nap of a child of 2 months waking at 08:00 ends at
    18:45, after the band's latest nap end of 18:00. *)
Lemma late_nap_end_flagged_witness :
  (exists e, nth_error (V1.events (V1.scheduleData 2 "08:00" [])) 4 = Some e
             /\ evEnd e = Some "18:45" /\ flaggedInEvent e)
  /\ (exists e, nth_error (V2.events (V2.scheduleData 2 "08:00" [])) 4 = Some e
                /\ evEnd e = Some "18:45"
                /\ flaggedInWarnings (V2.standard (V2.scheduleData 2 "08:00" []))
                     (V2.warnings (V2.scheduleData 2 "08:00" [])) e).
Proof.
  destruct (late_nap_end_flagged 2 "08:00" []) as [[H1 _] H2].
  split; eexists; (split; [vm_compute; reflexivity|]); (split; [reflexivity|]).
  - apply H1; [apply (nth_error_In _ 4); reflexivity|].
    split; [reflexivity|]. split; [reflexivity|].
    exists "18:45". split; reflexivity.
  - apply H2; [apply (nth_error_In _ 4); reflexivity|].
    split; [reflexivity|]. split; [reflexivity|].
    exists "18:45". split; reflexivity.
Defined.

(** C2 as stated fails on that schedule: the first variant appends no
    warning at all, and the second gives the late nap no severity. *)
Lemma late_nap_end_half_flagged :
  (exists e, nth_error (V1.events (V1.scheduleData 2 "08:00" [])) 4 = Some e
             /\ endsLate (V1.standard (V1.scheduleData 2 "08:00" [])) e
             /\ V1.warnings (V1.scheduleData 2 "08:00" []) = [])
  /\ (exists e, nth_error (V2.events (V2.scheduleData 2 "08:00" [])) 4 = Some e
                /\ endsLate (V2.standard (V2.scheduleData 2 "08:00" [])) e
                /\ alertLevel e = None
                /\ alertLevel e <> Some warning /\ alertLevel e <> Some critical).
Proof.
  split; eexists; (split; [vm_compute; reflexivity|]).
  - split; [|reflexivity].
    split; [reflexivity|]. split; [reflexivity|].
    exists "18:45". split; reflexivity.
  - split; [|repeat split; discriminate].
    split; [reflexivity|]. split; [reflexivity|].
    exists "18:45". split; reflexivity.
Qed.

(** * Further properties of the code *)

(** ** Times of day and durations *)

Section Durations.

Lemma timeToMinutes_clockText (t : Z) :
  0 <= t < 1440 -> timeToMinutes (clockText t) = Int t.
Proof.
  intros Ht. unfold clockText.
  rewrite timeToMinutes_hhmm.
  - f_equal. symmetry. apply Z.div_mod. lia.
  - split; [apply Z.div_pos; lia | apply Z.div_lt_upper_bound; lia].
  - apply Z.mod_pos_bound. lia.
Qed.

Lemma minutesToTime_day (m : Z) :
  0 <= m < 2880 -> minutesToTime (Int m) = clockText (m mod 1440).
Proof.
  intros Hm.
  assert (H : rendersWrapped m = true).
  { apply (forallb_interval rendersWrapped 0 2880); [vm_compute; reflexivity | lia]. }
  unfold rendersWrapped in H.
  destruct (Z.leb_spec 0 m); [|lia]. now apply String.eqb_eq.
Qed.

Lemma addMinutes_clockText (t d : Z) :
  0 <= t < 1440 -> 0 <= t + d < 2880 ->
  addMinutes (clockText t) d = clockText ((t + d) mod 1440).
Proof.
  intros Ht Hd. unfold addMinutes. rewrite timeToMinutes_clockText by exact Ht.
  cbn [add]. now apply minutesToTime_day.
Qed.

Lemma mod_next_day (x : Z) : 1440 <= x < 2880 -> x mod 1440 = x - 1440.
Proof.
  intros Hx. symmetry. apply Z.mod_unique with (q := 1); lia.
Qed.

(** From a time of day [t], the duration up to the time [d] minutes later is
    [d], and the duration from that later time back to [t] is the rest of
    the day, [1440 - d]: [getDuration] always counts forward. *)
Theorem duration_of_shifted_time (t d : Z) :
  0 <= t < 1440 -> 0 <= d < 1440 ->
  getDuration (clockText t) (addMinutes (clockText t) d) = Int d
  /\ (0 < d -> getDuration (addMinutes (clockText t) d) (clockText t) = Int (1440 - d)).
Proof.
  intros Ht Hd.
  rewrite addMinutes_clockText by lia.
  assert (Hm : 0 <= (t + d) mod 1440 < 1440) by (apply Z.mod_pos_bound; lia).
  unfold getDuration. rewrite !timeToMinutes_clockText by assumption.
  cbn [sub ltb add].
  destruct (Z_lt_ge_dec (t + d) 1440) as [Hsame|Hnext].
  - rewrite Z.mod_small by lia. split.
    + destruct (Z.ltb_spec (t + d - t) 0); f_equal; lia.
    + intros Hpos. destruct (Z.ltb_spec (t - (t + d)) 0); f_equal; lia.
  - rewrite mod_next_day by lia. split.
    + destruct (Z.ltb_spec (t + d - 1440 - t) 0); f_equal; lia.
    + intros Hpos. destruct (Z.ltb_spec (t - (t + d - 1440)) 0); f_equal; lia.
Qed.

Lemma duration_of_shifted_time_witness :
  getDuration (clockText 1410) (addMinutes (clockText 1410) 45) = Int 45
  /\ (0 < 45 -> getDuration (addMinutes (clockText 1410) 45) (clockText 1410)
                = Int (1440 - 45)).
Proof. apply (duration_of_shifted_time 1410 45); lia. Defined.

(** Adding minutes in two steps is adding their sum, as long as the steps go
    forward and span a day at most; adding nothing or a whole day gives the
    time back. *)
Theorem addMinutes_compose (t a b : Z) :
  0 <= t < 1440 -> 0 <= a -> 0 <= b -> a + b <= 1440 ->
  addMinutes (addMinutes (clockText t) a) b = addMinutes (clockText t) (a + b)
  /\ addMinutes (clockText t) 0 = clockText t
  /\ addMinutes (clockText t) 1440 = clockText t.
Proof.
  intros Ht Ha Hb Hab.
  assert (Hm : 0 <= (t + a) mod 1440 < 1440) by (apply Z.mod_pos_bound; lia).
  split; [|split].
  - rewrite (addMinutes_clockText t a) by lia.
    rewrite (addMinutes_clockText ((t + a) mod 1440) b) by lia.
    rewrite (addMinutes_clockText t (a + b)) by lia.
    f_equal. rewrite Z.add_mod_idemp_l by lia. f_equal. lia.
  - rewrite addMinutes_clockText by lia. f_equal.
    rewrite Z.add_0_r. apply Z.mod_small. lia.
  - rewrite addMinutes_clockText by lia. f_equal.
    rewrite mod_next_day by lia. lia.
Qed.

Lemma addMinutes_compose_witness :
  addMinutes (addMinutes (clockText 300) 360) 75 = addMinutes (clockText 300) (360 + 75)
  /\ addMinutes (clockText 300) 0 = clockText 300
  /\ addMinutes (clockText 300) 1440 = clockText 300.
Proof. apply (addMinutes_compose 300 360 75); lia. Defined.

Lemma split_without_separator (sep : ascii) (s : string) :
  hasChar sep s = false -> split sep s = [s].
Proof.
  induction s as [|c r IH]; [reflexivity|].
  cbn [hasChar split]. intros H. apply orb_false_iff in H as [Hc Hr].
  rewrite Hc, (IH Hr). reflexivity.
Qed.

(** A text that is not blank and has no colon is read as [NaN], without an
    error, and the helpers pass that on: a time computed from it is the text
    [NaN:NaN], a duration to or from it is [NaN], and it is never later or
    earlier than another time. *)
Theorem time_without_colon (s other : string) (d : Z) :
  s <> "" -> hasChar ":" s = false ->
  timeToMinutes s = NaN
  /\ addMinutes s d = "NaN:NaN"
  /\ getDuration s other = NaN /\ getDuration other s = NaN
  /\ isLater s other = false /\ isLater other s = false.
Proof.
  intros Hne Hcolon.
  assert (Hnan : timeToMinutes s = NaN).
  { unfold timeToMinutes. destruct (String.eqb_spec s ""); [contradiction|].
    now rewrite (split_without_separator _ _ Hcolon). }
  unfold addMinutes, getDuration, isLater, gtb. rewrite Hnan.
  repeat split; destruct (timeToMinutes other); reflexivity.
Qed.

Lemma time_without_colon_witness :
  timeToMinutes "0700" = NaN
  /\ addMinutes "0700" 90 = "NaN:NaN"
  /\ getDuration "0700" "08:00" = NaN /\ getDuration "08:00" "0700" = NaN
  /\ isLater "0700" "08:00" = false /\ isLater "08:00" "0700" = false.
Proof. apply (time_without_colon "0700" "08:00" 90); [discriminate | reflexivity]. Defined.

End Durations.

(** ** The age bands *)

Section Bands.

(** The band found for an age from 0 to 60 months contains that age; younger
    ages get the first band and older ages the last one.  In both tables. *)
Theorem band_contains_age (month : Z) :
  let a := V1.getStandardByMonth month in
  let b := V2.getStandardByMonth month in
  (0 <= month <= 60 ->
   rangeStart a <= month <= rangeEnd a /\ rangeStart b <= month <= rangeEnd b)
  /\ (month < 0 ->
      a = V1.SLEEP_STANDARDS V1.k0_3 /\ b = V2.SLEEP_STANDARDS V2.k0_3)
  /\ (60 < month ->
      a = V1.SLEEP_STANDARDS V1.k36plus /\ b = V2.SLEEP_STANDARDS V2.k36plus).
Proof.
  cbv zeta. unfold V1.getStandardByMonth, V2.getStandardByMonth.
  repeat match goal with
         | |- context [?x <=? ?y] => destruct (Z.leb_spec x y)
         end;
    (split; [|split]); intros Hcase; try lia; cbn; try (split; reflexivity); lia.
Qed.

Lemma band_contains_age_witness :
  (rangeStart (V1.getStandardByMonth 18) <= 18 <= rangeEnd (V1.getStandardByMonth 18)
   /\ rangeStart (V2.getStandardByMonth 18) <= 18 <= rangeEnd (V2.getStandardByMonth 18))
  /\ (V1.getStandardByMonth (-1) = V1.SLEEP_STANDARDS V1.k0_3
      /\ V2.getStandardByMonth (-1) = V2.SLEEP_STANDARDS V2.k0_3)
  /\ (V1.getStandardByMonth 72 = V1.SLEEP_STANDARDS V1.k36plus
      /\ V2.getStandardByMonth 72 = V2.SLEEP_STANDARDS V2.k36plus).
Proof.
  split; [|split].
  - apply (band_contains_age 18). lia.
  - apply (band_contains_age (-1)). lia.
  - apply (band_contains_age 72). lia.
Defined.

Lemma interpolated_between (std : SleepStandard) (month : Z) :
  rangeStart std < rangeEnd std -> minWake std <= maxWake std ->
  rangeStart std <= month <= rangeEnd std ->
  minWake std <= calculateInterpolatedWakeWindow month std <= maxWake std.
Proof.
  intros Hr Hw Hm.
  assert (Hne : rangeStart std <> rangeEnd std) by lia.
  rewrite interpolated_unfold by exact Hne.
  assert (Hlo : round (interpolate std (rangeStart std)) = minWake std).
  { rewrite (round_comp _ _ (interpolate_lower std)). apply round_integer. }
  assert (Hhi : round (interpolate std (rangeEnd std)) = maxWake std).
  { rewrite (round_comp _ _ (interpolate_upper std Hne)). apply round_integer. }
  rewrite <- Hlo, <- Hhi.
  split; apply round_mono, interpolate_mono; lia.
Qed.

(** For an age from 0 to 60 months the wake window interpolated in the band
    of that age lies between the band's minimum and maximum wake windows.
    In both tables. *)
Theorem wake_window_within_band (month : Z) :
  0 <= month <= 60 ->
  (let a := V1.getStandardByMonth month in
   minWake a <= calculateInterpolatedWakeWindow month a <= maxWake a)
  /\ (let b := V2.getStandardByMonth month in
      minWake b <= calculateInterpolatedWakeWindow month b <= maxWake b).
Proof.
  intros Hm. cbv zeta.
  pose proof (bands_in_order month) as Hord. cbv zeta in Hord.
  destruct Hord as (Hra & Hwa & Hrb & Hwb).
  assert (Hin :
    (rangeStart (V1.getStandardByMonth month) <= month
       <= rangeEnd (V1.getStandardByMonth month))
    /\ (rangeStart (V2.getStandardByMonth month) <= month
          <= rangeEnd (V2.getStandardByMonth month))).
  { unfold V1.getStandardByMonth, V2.getStandardByMonth.
    repeat match goal with
           | |- context [?x <=? ?y] => destruct (Z.leb_spec x y)
           end; cbn; lia. }
  destruct Hin as [Ha Hb].
  split; apply interpolated_between; assumption.
Qed.

Lemma wake_window_within_band_witness :
  (let a := V1.getStandardByMonth 24 in
   minWake a <= calculateInterpolatedWakeWindow 24 a <= maxWake a)
  /\ (let b := V2.getStandardByMonth 24 in
      minWake b <= calculateInterpolatedWakeWindow 24 b <= maxWake b).
Proof. apply (wake_window_within_band 24). lia. Defined.

End Bands.

(** ** Editing the nap log *)

Section NapLogEdits.

Lemma filter_all {A : Type} (p : A -> bool) (l : list A) :
  Forall (fun a => p a = true) l -> filter p l = l.
Proof.
  induction 1 as [|a r Ha _ IH]; cbn [filter]; [reflexivity|].
  now rewrite Ha, IH.
Qed.

Lemma filter_none {A : Type} (p : A -> bool) (l : list A) :
  Forall (fun a => p a = false) l -> filter p l = [].
Proof.
  induction 1 as [|a r Ha _ IH]; cbn [filter]; [reflexivity|].
  now rewrite Ha, IH.
Qed.

Lemma filter_sorted (p : NapEntry -> bool) (l : list NapEntry) :
  StronglySorted startLe l -> StronglySorted startLe (filter p l).
Proof.
  induction 1 as [|y r Hr IH Hy]; cbn [filter]; [constructor|].
  destruct (p y); [|exact IH].
  constructor; [exact IH|].
  rewrite Forall_forall in *. intros z Hz. apply Hy.
  now apply filter_In in Hz.
Qed.

(** [removeNap] drops every entry with the given identifier and nothing
    else: the other entries stay, in their order, so a log in ascending order
    stays so; the staged fields are untouched; and when no entry has the
    identifier the state is unchanged. *)
Theorem removeNap_drops_only_target (target : string) (st : NapLog) :
  Forall (fun n => id n <> target) (log_naps (removeNap target st))
  /\ (forall n, In n (log_naps st) -> id n <> target ->
                In n (log_naps (removeNap target st)))
  /\ (StronglySorted startLe (log_naps st) ->
      StronglySorted startLe (log_naps (removeNap target st)))
  /\ napStart (removeNap target st) = napStart st
  /\ napEnd (removeNap target st) = napEnd st
  /\ (Forall (fun n => id n <> target) (log_naps st) -> removeNap target st = st).
Proof.
  unfold removeNap. cbn [log_naps napStart napEnd].
  split; [|split; [|split; [|split; [|split]]]]; try reflexivity.
  - rewrite Forall_forall. intros n Hn. apply filter_In in Hn as [_ Hkeep].
    intros He. apply String.eqb_eq in He. rewrite He in Hkeep. discriminate.
  - intros n Hin Hid. apply filter_In. split; [exact Hin|].
    destruct (String.eqb_spec (id n) target); [contradiction | reflexivity].
  - apply filter_sorted.
  - intros Hnone. destruct st as [entries s e]. cbn [log_naps napStart napEnd] in *.
    f_equal. apply filter_all.
    eapply Forall_impl; [|exact Hnone]. intros n Hid. cbn beta in *.
    destruct (String.eqb_spec (id n) target); [contradiction | reflexivity].
Qed.

Lemma removeNap_drops_only_target_witness :
  removeNap "2" sampleLog = sampleLog
  /\ StronglySorted startLe (log_naps (removeNap "1" sampleLog)).
Proof.
  split.
  - apply (removeNap_drops_only_target "2" sampleLog).
    constructor; [discriminate | constructor].
  - apply (removeNap_drops_only_target "1" sampleLog).
    constructor; [constructor | constructor].
Defined.

Lemma startLe_not_after (a b : NapEntry) :
  startLe a b -> gtb (compareStart a b) (Int 0) = false.
Proof.
  intros (x & y & Hx & Hy & Hxy). unfold compareStart, gtb, ltb, sub.
  rewrite Hx, Hy. apply Z.ltb_ge. lia.
Qed.

Lemma startsAfter_later (x y z : NapEntry) :
  startsAfter x y = true -> startLe y z -> startsAfter x z = true.
Proof.
  unfold startsAfter, compareStart, gtb, ltb, sub.
  intros Hy (a & b & Ha & Hb & Hab). rewrite Ha in Hy. rewrite Hb.
  destruct (timeToMinutes (startTime x)) as [k|]; [|discriminate].
  apply Z.ltb_lt in Hy. apply Z.ltb_lt. lia.
Qed.

Lemma insertNap_front (y : NapEntry) (l : list NapEntry) :
  Forall (startLe y) l -> insertNap y l = y :: l.
Proof.
  intros Hl. destruct Hl as [|z r Hz _]; cbn [insertNap]; [reflexivity|].
  now rewrite (startLe_not_after y z Hz).
Qed.

Lemma insert_behind_earlier (x : NapEntry) (l : list NapEntry) :
  readsAsMinutes (startTime x) ->
  Forall (fun n => readsAsMinutes (startTime n)) l ->
  StronglySorted startLe l ->
  fold_right insertNap [x] l
  = (filter (fun n => negb (startsAfter x n)) l ++ x :: filter (startsAfter x) l)%list.
Proof.
  intros Hx Hl Hs. induction Hs as [|y r Hr IH Hy]; [reflexivity|].
  inversion Hl as [|? ? Hy' Hr']; subst.
  cbn [fold_right filter]. rewrite (IH Hr').
  pose proof (compareStart_cases y x Hy' Hx) as Hc.
  fold (startsAfter x y) in Hc.
  destruct (startsAfter x y) eqn:Hafter; cbn [negb].
  - assert (Hall : Forall (fun n => startsAfter x n = true) r).
    { eapply Forall_impl; [|exact Hy]. intros z Hz.
      exact (startsAfter_later x y z Hafter Hz). }
    rewrite (filter_all _ _ Hall).
    rewrite filter_none
      by (eapply Forall_impl; [|exact Hall]; intros z Hz; cbn beta; now rewrite Hz).
    cbn [app insertNap]. unfold startsAfter in Hafter. rewrite Hafter.
    now rewrite (insertNap_front y r Hy).
  - apply insertNap_front. apply Forall_app. split.
    + rewrite Forall_forall in *. intros z Hz. apply Hy.
      now apply filter_In in Hz.
    + constructor; [exact Hc|].
      rewrite Forall_forall in *. intros z Hz. apply Hy.
      now apply filter_In in Hz.
Qed.

Lemma earlier_then_later (x : NapEntry) (l : list NapEntry) :
  StronglySorted startLe l ->
  (filter (fun n => negb (startsAfter x n)) l ++ filter (startsAfter x) l)%list = l.
Proof.
  induction 1 as [|y r Hr IH Hy]; [reflexivity|].
  cbn [filter]. destruct (startsAfter x y) eqn:Hafter; cbn [negb].
  - assert (Hall : Forall (fun n => startsAfter x n = true) r).
    { eapply Forall_impl; [|exact Hy]. intros z Hz.
      exact (startsAfter_later x y z Hafter Hz). }
    rewrite (filter_all _ _ Hall).
    rewrite filter_none
      by (eapply Forall_impl; [|exact Hall]; intros z Hz; cbn beta; now rewrite Hz).
    reflexivity.
  - cbn [app]. now rewrite IH.
Qed.

(** In a log that is in ascending order, [addNap] puts the new entry behind
    every entry that starts at the same time or earlier and in front of every
    entry that starts later; the entries already there keep their order. *)
Theorem addNap_position (now : Z) (st : NapLog) :
  napStart st <> "" -> napEnd st <> "" ->
  readsAsMinutes (napStart st) ->
  Forall (fun n => readsAsMinutes (startTime n)) (log_naps st) ->
  StronglySorted startLe (log_naps st) ->
  log_naps (addNap now st)
  = (filter (fun n => negb (startsAfter (stagedEntry now st) n)) (log_naps st)
     ++ stagedEntry now st
     :: filter (startsAfter (stagedEntry now st)) (log_naps st))%list.
Proof.
  intros Hs He Hnew Hold Hsorted.
  rewrite (addNap_filled now st Hs He). cbn [log_naps].
  unfold sortNaps. rewrite fold_right_app. cbn [fold_right insertNap].
  now apply insert_behind_earlier.
Qed.

Lemma addNap_position_witness :
  log_naps (addNap 5 sampleLog)
  = (filter (fun n => negb (startsAfter (stagedEntry 5 sampleLog) n)) (log_naps sampleLog)
     ++ stagedEntry 5 sampleLog
     :: filter (startsAfter (stagedEntry 5 sampleLog)) (log_naps sampleLog))%list.
Proof.
  apply (addNap_position 5 sampleLog).
  - discriminate.
  - discriminate.
  - exists 540. reflexivity.
  - constructor; [exists 720; reflexivity | constructor].
  - constructor; [constructor | constructor].
Defined.

(** Adding a nap to a log in ascending order and then removing the entry with
    the identifier it was given restores the log, provided no older entry
    has that identifier. *)
Theorem addNap_then_removeNap (now : Z) (st : NapLog) :
  napStart st <> "" -> napEnd st <> "" ->
  readsAsMinutes (napStart st) ->
  Forall (fun n => readsAsMinutes (startTime n)) (log_naps st) ->
  StronglySorted startLe (log_naps st) ->
  Forall (fun n => id n <> toString (Int now)) (log_naps st) ->
  log_naps (removeNap (toString (Int now)) (addNap now st)) = log_naps st.
Proof.
  intros Hs He Hnew Hold Hsorted Hids.
  assert (Hkeep : Forall (fun n => otherThan (toString (Int now)) n = true) (log_naps st)).
  { eapply Forall_impl; [|exact Hids]. intros n Hid. unfold otherThan. cbn beta in *.
    destruct (String.eqb_spec (id n) (toString (Int now))); [contradiction | reflexivity]. }
  assert (Hsub : forall q, filter (otherThan (toString (Int now))) (filter q (log_naps st))
                           = filter q (log_naps st)).
  { intros q. apply filter_all. rewrite Forall_forall in *.
    intros n Hn. apply Hkeep. now apply filter_In in Hn. }
  unfold removeNap. cbn [log_naps].
  rewrite (addNap_filled now st Hs He). cbn [log_naps].
  unfold sortNaps. rewrite fold_right_app. cbn [fold_right insertNap].
  rewrite (insert_behind_earlier (stagedEntry now st) (log_naps st) Hnew Hold Hsorted).
  fold (otherThan (toString (Int now))).
  rewrite filter_app. cbn [filter].
  replace (otherThan (toString (Int now)) (stagedEntry now st)) with false
    by (unfold otherThan, stagedEntry; cbn [id]; now rewrite String.eqb_refl).
  rewrite !Hsub. now apply earlier_then_later.
Qed.

Lemma addNap_then_removeNap_witness :
  log_naps (removeNap (toString (Int 5)) (addNap 5 sampleLog)) = log_naps sampleLog.
Proof.
  apply (addNap_then_removeNap 5 sampleLog).
  - discriminate.
  - discriminate.
  - exists 540. reflexivity.
  - constructor; [exists 720; reflexivity | constructor].
  - constructor; [constructor | constructor].
  - constructor; [discriminate | constructor].
Defined.

End NapLogEdits.

(** ** The password gate *)

Section Gate.

Import PasswordGate.

Lemma gate_stays_open (st : State) (actions : list Action) :
  ok st = true -> run st actions = st.
Proof.
  intros Hok. induction actions as [|a r IH]; [reflexivity|].
  unfold run in *. cbn [fold_left].
  replace (handle st a) with st; [exact IH|].
  unfold handle, render. now rewrite Hok.
Qed.

Lemma gate_opens_from (actions : list Action) :
  forall st, ok st = false ->
  (ok (run st actions) = true <->
   exists before after,
     actions = (before ++ Click :: after)%list
     /\ typedAfter (input st) before = PASSWORD).
Proof.
  induction actions as [|a r IH]; intros st Hclosed.
  - split.
    + cbn. congruence.
    + intros (before & after & Heq & _). destruct before; discriminate.
  - assert (Hstep : handle st a =
        match a with
        | Change value => {| input := value; ok := false |}
        | Click => if String.eqb (input st) PASSWORD
                   then {| input := input st; ok := true |} else st
        end).
    { unfold handle, render. rewrite Hclosed. now destruct a. }
    unfold run in *. cbn [fold_left]. rewrite Hstep. destruct a as [value|].
    + rewrite (IH {| input := value; ok := false |} eq_refl). cbn [input]. split.
      * intros (before & after & -> & Htyped).
        exists (Change value :: before), after. split; [reflexivity | exact Htyped].
      * intros (before & after & Heq & Htyped).
        destruct before as [|b before]; [discriminate|].
        injection Heq as <- ->. exists before, after. split; [reflexivity | exact Htyped].
    + destruct (String.eqb_spec (input st) PASSWORD) as [Hpw|Hpw].
      * split.
        -- intros _. exists [], r. split; [reflexivity | exact Hpw].
        -- intros _. fold (run {| input := input st; ok := true |} r).
           now rewrite gate_stays_open.
      * rewrite (IH st Hclosed). split.
        -- intros (before & after & -> & Htyped).
           exists (Click :: before), after. split; [reflexivity | exact Htyped].
        -- intros (before & after & Heq & Htyped).
           destruct before as [|b before]; [contradiction|].
           injection Heq as <- ->. exists before, after.
           split; [reflexivity | exact Htyped].
Qed.

(** The gate shows the children exactly when the button was pressed at a
    moment when the text in the field was the password; and once it shows
    the children no action changes that. *)
Theorem gate_opens_only_with_password (actions more : list Action) :
  (render (run initial actions) = Children <->
   exists before after,
     actions = (before ++ Click :: after)%list
     /\ typedAfter "" before = PASSWORD)
  /\ (render (run initial actions) = Children ->
      render (run (run initial actions) more) = Children).
Proof.
  assert (Hview : forall st, render st = Children <-> ok st = true).
  { intros st. unfold render. destruct (ok st); split; congruence. }
  split.
  - rewrite Hview. exact (gate_opens_from actions initial eq_refl).
  - intros Hopen. apply Hview in Hopen. rewrite gate_stays_open by exact Hopen.
    now apply Hview.
Qed.

Lemma gate_opens_only_with_password_witness :
  render (run initial [Change "sleep"; Click; Change "sleep123"; Click]) = Children
  /\ render (run (run initial [Change "sleep"; Click; Change "sleep123"; Click])
               [Change ""; Click]) = Children.
Proof.
  assert (Hopen :
    render (run initial [Change "sleep"; Click; Change "sleep123"; Click]) = Children).
  { apply (proj1 (gate_opens_only_with_password
                    [Change "sleep"; Click; Change "sleep123"; Click] [])).
    exists [Change "sleep"; Click; Change "sleep123"], []. split; reflexivity. }
  split; [exact Hopen|].
  exact (proj2 (gate_opens_only_with_password
                  [Change "sleep"; Click; Change "sleep123"; Click]
                  [Change ""; Click]) Hopen).
Defined.

End Gate.

(** ** The shape of a schedule *)

Lemma lastOf_cons {A : Type} (a b : A) (r : list A) :
  lastOf (a :: b :: r) = lastOf (b :: r).
Proof. unfold lastOf. cbn [List.length]. now rewrite !Nat.sub_succ, !Nat.sub_0_r. Qed.

Lemma lastOf_snoc {A : Type} (l : list A) (a : A) : lastOf (l ++ [a]) = Some a.
Proof.
  unfold lastOf. rewrite length_app. cbn [List.length].
  replace (List.length l + 1 - 1)%nat with (List.length l) by lia.
  rewrite nth_error_app2 by lia. now rewrite Nat.sub_diag.
Qed.

Lemma lastOf_push {A : Type} (a : A) (l : list A) :
  lastOf (a :: l) = Some match lastOf l with Some x => x | None => a end.
Proof.
  destruct l as [|x r] using rev_ind; [reflexivity|].
  rewrite lastOf_snoc. change (a :: r ++ [x])%list with ((a :: r) ++ [x])%list.
  now rewrite lastOf_snoc.
Qed.

Lemma lastEnd_cons (current : string) (n : NapEntry) (r : list NapEntry) :
  lastEnd current (n :: r) = lastEnd (endTime n) r.
Proof.
  unfold lastEnd. destruct r as [|n' r'] using rev_ind; [reflexivity|].
  rewrite lastOf_snoc. change (n :: r' ++ [n'])%list with ((n :: r') ++ [n'])%list.
  now rewrite lastOf_snoc.
Qed.

Section ObservedLoop.

Variable std : SleepStandard.
Variable body : Locals -> NapEntry -> Z -> Locals.
Hypothesis Hbody : forall st n i, echoesOne std n st (body st n i).

Lemma forEach_shape (l : list NapEntry) :
  forall st i,
  exists obs,
    l_events (forEach body st i l) = (l_events st ++ obs)%list
    /\ Forall2 (echoes std) l obs
    /\ l_currentTime (forEach body st i l) = lastEnd (l_currentTime st) l
    /\ l_napsPlanned (forEach body st i l) = l_napsPlanned st + Z.of_nat (List.length l)
    /\ l_nextWakeWindow (forEach body st i l) = l_nextWakeWindow st.
Proof.
  induction l as [|n r IH]; intros st i.
  - exists []. cbn [forEach List.length]. rewrite app_nil_r.
    repeat split; try constructor. lia.
  - destruct (Hbody st n i) as (e & Hev & Hecho & Hcur & Hplanned & Hnext).
    destruct (IH (body st n i) (i + 1)) as (obs & Hev' & Hobs & Hcur' & Hplanned' & Hnext').
    exists (e :: obs). cbn [forEach].
    split; [|split; [|split; [|split]]].
    + rewrite Hev', Hev, <- app_assoc. reflexivity.
    + now constructor.
    + rewrite Hcur', Hcur. symmetry. apply lastEnd_cons.
    + rewrite Hplanned', Hplanned. cbn [List.length]. lia.
    + now rewrite Hnext', Hnext.
Qed.

End ObservedLoop.

Section PredictionLoop.

Variable durations : list Z.
Variable later : Z.
Variable byClock : Z -> bool.
Variable body : Locals -> Z -> Locals.
Hypothesis Hbody :
  forall st i, predictsOne durations later (byClock (l_napsPlanned st)) st (body st i).

Lemma forLoop_shape (count : nat) :
  forall i st,
  exists preds,
    l_events (forLoop body count i st) = (l_events st ++ preds)%list
    /\ List.length preds = count
    /\ Forall (predicted durations) preds
    /\ l_currentTime (forLoop body count i st)
       = match lastOf preds with
         | Some e => endOf e
         | None => l_currentTime st
         end
    /\ (byClock (l_napsPlanned st) = false ->
        chained (l_currentTime st) (l_nextWakeWindow st) later preds).
Proof.
  induction count as [|k IH]; intros i st.
  - exists []. cbn [forLoop]. rewrite app_nil_r. repeat split; constructor.
  - destruct (Hbody st i) as (e & Hev & Hpred & Hcur & Hplanned & Hnext & Hstart).
    destruct (IH (i + 1) (body st i)) as (preds & Hev' & Hlen & Hall & Hcur' & Hchain).
    exists (e :: preds). cbn [forLoop].
    split; [|split; [|split; [|split]]].
    + rewrite Hev', Hev, <- app_assoc. reflexivity.
    + cbn [List.length]. now rewrite Hlen.
    + now constructor.
    + rewrite Hcur', lastOf_push, Hcur. now destruct (lastOf preds).
    + intros Hwin. cbn [chained]. split; [now apply Hstart|].
      rewrite Hplanned, Hcur, Hnext in Hchain. now apply Hchain.
Qed.

End PredictionLoop.

Section Shape.

Variable std : SleepStandard.

Lemma V1_observedNap_echoes (st : Locals) (n : NapEntry) (i : Z) :
  echoesOne std n st (V1.observedNap std st n i).
Proof.
  unfold V1.observedNap, echoesOne, echoes, observedSeverity.
  destruct (ltb (duration n) (Int 45)); [|destruct (gtb (duration n) _)];
    eexists; cbn; repeat split.
Qed.

Lemma V2_observedNap_echoes (st : Locals) (n : NapEntry) (i : Z) :
  echoesOne std n st (V2.observedNap std st n i).
Proof.
  unfold V2.observedNap, echoesOne, echoes, observedSeverity.
  destruct (ltb (duration n) (Int 45)); [|destruct (gtb (duration n) _)];
    eexists; cbn [l_events l_currentTime l_napsPlanned l_nextWakeWindow
                  type evStart evEnd isPrediction alertLevel orb];
    repeat split.
Qed.

Lemma V1_predictNap_one (age : Z) (st : Locals) (i : Z) :
  predictsOne [30; 75; 90] (maxWake std)
    (V1_byClock age std (l_napsPlanned st)) st
    (V1.predictNap std (V1.isToddlerAge age) st i).
Proof.
  unfold predictsOne, V1.predictNap, V1_byClock.
  eexists. split; [reflexivity|].
  cbn [l_currentTime l_napsPlanned l_nextWakeWindow].
  split; [|split; [|split; [|split]]]; try reflexivity.
  - unfold predicted. cbn [type isPrediction evEnd evStart].
    split; [reflexivity|]. split; [reflexivity|].
    eexists. split; [|reflexivity].
    unfold V1.placeNap. case_ifs; cbn [V1.predictedDuration In]; auto.
  - intros Hwin. cbn [evStart]. unfold V1.placeNap. rewrite Hwin. reflexivity.
Qed.

Lemma V2_predictNap_one (age specific : Z) (st : Locals) (i : Z) :
  predictsOne [30; 90] (Z.min (maxWake std) (specific + 15))
    (V2_byClock std (l_napsPlanned st)) st
    (V2.predictNap age std specific st i).
Proof.
  unfold predictsOne, V2.predictNap, V2_byClock.
  eexists. split; [reflexivity|].
  cbn [l_currentTime l_napsPlanned l_nextWakeWindow].
  split; [|split; [|split; [|split]]]; try reflexivity.
  - unfold predicted. cbn [type isPrediction evEnd evStart].
    split; [reflexivity|]. split; [reflexivity|].
    eexists. split; [|reflexivity].
    destruct ((3 <=? naps std) && _); cbn [In]; auto.
  - intros Hwin. cbn [evStart]. rewrite Hwin. reflexivity.
Qed.

End Shape.

Section PlanShape.

Variables (age : Z) (wakeTime : string) (l : list NapEntry).

Lemma V1_shortNapAdjust_next (st : Locals) :
  l_events (V1.shortNapAdjust l st) = l_events st
  /\ l_currentTime (V1.shortNapAdjust l st) = l_currentTime st
  /\ l_napsPlanned (V1.shortNapAdjust l st) = l_napsPlanned st
  /\ l_nextWakeWindow (V1.shortNapAdjust l st)
     = (if lastShort l then round (inject_Z (l_nextWakeWindow st) * (8 # 10))%Q
        else l_nextWakeWindow st)
  /\ l_warnings (V1.shortNapAdjust l st)
     = (l_warnings st ++ if lastShort l then [V1.shortNapWarning] else [])%list.
Proof.
  unfold V1.shortNapAdjust, lastShort.
  destruct (lastOf l) as [n|]; [destruct (ltb (duration n) (Int 45))|];
    cbn [l_events l_currentTime l_napsPlanned l_nextWakeWindow l_warnings];
    rewrite ?app_nil_r; repeat split.
Qed.

Lemma V2_shortNapAdjust_next (st : Locals) :
  l_events (V2.shortNapAdjust l st) = l_events st
  /\ l_currentTime (V2.shortNapAdjust l st) = l_currentTime st
  /\ l_napsPlanned (V2.shortNapAdjust l st) = l_napsPlanned st
  /\ l_nextWakeWindow (V2.shortNapAdjust l st)
     = (if lastShort l then round (inject_Z (l_nextWakeWindow st) * (85 # 100))%Q
        else l_nextWakeWindow st).
Proof.
  unfold V2.shortNapAdjust, lastShort.
  destruct (lastOf l) as [n|]; [destruct (ltb (duration n) (Int 45))|];
    cbn [l_events l_currentTime l_napsPlanned l_nextWakeWindow]; repeat split.
Qed.

Lemma V1_plan_shape :
  let std := V1.getStandardByMonth age in
  let st := V1.planNaps age wakeTime l in
  exists obs preds,
    l_events st = (V1.wakeEvent wakeTime :: obs ++ preds)%list
    /\ Forall2 (echoes std) l obs
    /\ List.length preds = remaining std l
    /\ Forall (predicted [30; 75; 90]) preds
    /\ (V1_byClock age std (Z.of_nat (List.length l)) = false ->
        chained (lastEnd wakeTime l) (V1_firstWindow age l) (maxWake std) preds).
Proof.
  cbv zeta. unfold V1.planNaps.
  set (std := V1.getStandardByMonth age).
  set (st0 := {| l_events := [V1.wakeEvent wakeTime]; l_warnings := _;
                 l_currentTime := wakeTime; l_napsPlanned := 0;
                 l_nextWakeWindow := calculateInterpolatedWakeWindow age std |}).
  destruct (forEach_shape std (V1.observedNap std) (V1_observedNap_echoes std) l st0 0)
    as (obs & Hev & Hobs & Hcur & Hplanned & Hnext).
  set (st1 := forEach (V1.observedNap std) st0 0 l) in *.
  destruct (V1_shortNapAdjust_next st1) as (Hev2 & Hcur2 & Hplanned2 & Hnext2 & _).
  change ((19 <=? age) && (age <=? 36)) with (V1.isToddlerAge age).
  destruct (forLoop_shape [30; 75; 90] (maxWake std) (V1_byClock age std)
              (V1.predictNap std (V1.isToddlerAge age))
              (fun st i => V1_predictNap_one std age st i)
              (Z.to_nat (Z.max 0 (naps std - l_napsPlanned st1))) 0
              (V1.shortNapAdjust l st1))
    as (preds & Hev3 & Hlen & Hall & _ & Hchain).
  exists obs, preds.
  split; [|split; [|split; [|split]]].
  - rewrite Hev3, Hev2, Hev. reflexivity.
  - exact Hobs.
  - rewrite Hlen, Hplanned. reflexivity.
  - exact Hall.
  - intros Hwin. rewrite Hplanned2, Hcur2, Hnext2, Hplanned, Hcur, Hnext in Hchain.
    apply Hchain. exact Hwin.
Qed.

Lemma V2_plan_shape :
  let std := V2.getStandardByMonth age in
  let st := V2.planNaps age wakeTime l in
  exists obs preds,
    l_events st = (V2.wakeEvent wakeTime :: obs ++ preds)%list
    /\ Forall2 (echoes std) l obs
    /\ List.length preds = remaining std l
    /\ Forall (predicted [30; 90]) preds
    /\ (V2_byClock std (Z.of_nat (List.length l)) = false ->
        chained (lastEnd wakeTime l) (V2_firstWindow age l) (V2_laterWindow age) preds).
Proof.
  cbv zeta. unfold V2.planNaps.
  set (std := V2.getStandardByMonth age).
  set (specific := calculateInterpolatedWakeWindow age std).
  set (st0 := {| l_events := [V2.wakeEvent wakeTime]; l_warnings := _;
                 l_currentTime := wakeTime; l_napsPlanned := 0;
                 l_nextWakeWindow := specific |}).
  destruct (forEach_shape std (V2.observedNap std) (V2_observedNap_echoes std) l st0 0)
    as (obs & Hev & Hobs & Hcur & Hplanned & Hnext).
  set (st1 := forEach (V2.observedNap std) st0 0 l) in *.
  destruct (V2_shortNapAdjust_next st1) as (Hev2 & Hcur2 & Hplanned2 & Hnext2).
  destruct (forLoop_shape [30; 90] (Z.min (maxWake std) (specific + 15)) (V2_byClock std)
              (V2.predictNap age std specific)
              (fun st i => V2_predictNap_one std age specific st i)
              (Z.to_nat (Z.max 0 (naps std - l_napsPlanned st1))) 0
              (V2.shortNapAdjust l st1))
    as (preds & Hev3 & Hlen & Hall & _ & Hchain).
  exists obs, preds.
  split; [|split; [|split; [|split]]].
  - rewrite Hev3, Hev2, Hev. reflexivity.
  - exact Hobs.
  - rewrite Hlen, Hplanned. reflexivity.
  - exact Hall.
  - intros Hwin. rewrite Hplanned2, Hcur2, Hnext2, Hplanned, Hcur, Hnext in Hchain.
    apply Hchain. exact Hwin.
Qed.

(** A schedule is the wake event, then one event for each logged nap in the
    order of the log (same start and end, not a prediction, with severity
    warning exactly when the nap is shorter than 45 minutes or longer than
    the band allows), then as many predicted naps as the band has naps left
    (none when the log already holds as many), each ending a fixed duration
    after its start, and last the bedtime event.  In both variants. *)
Theorem schedule_shape :
  (let std := V1.getStandardByMonth age in
   exists obs preds b,
     V1.events (V1.scheduleData age wakeTime l)
     = (V1.wakeEvent wakeTime :: obs ++ preds ++ [b])%list
     /\ Forall2 (echoes std) l obs
     /\ List.length preds = remaining std l
     /\ Forall (predicted [30; 75; 90]) preds
     /\ type b = bedtime /\ isPrediction b = true)
  /\ (let std := V2.getStandardByMonth age in
      exists obs preds b,
        V2.events (V2.scheduleData age wakeTime l)
        = (V2.wakeEvent wakeTime :: obs ++ preds ++ [b])%list
        /\ Forall2 (echoes std) l obs
        /\ List.length preds = remaining std l
        /\ Forall (predicted [30; 90]) preds
        /\ type b = bedtime /\ isPrediction b = true).
Proof.
  split; cbv zeta.
  - destruct V1_plan_shape as (obs & preds & Hev & Hobs & Hlen & Hall & _).
    exists obs, preds, (V1.bedtimeEvent age (V1.planNaps age wakeTime l)).
    split; [|split; [|split; [|split; [|split]]]]; trivial.
    + rewrite V1_events_split, Hev. cbn [app]. now rewrite <- app_assoc.
    + apply V1_bedtimeEvent_type.
    + unfold V1.bedtimeEvent. case_ifs; reflexivity.
  - destruct V2_plan_shape as (obs & preds & Hev & Hobs & Hlen & Hall & _).
    exists obs, preds, (V2.bedtimeEvent age (V2.planNaps age wakeTime l)).
    split; [|split; [|split; [|split; [|split]]]]; trivial.
    + rewrite V2_events_split, Hev. cbn [app]. now rewrite <- app_assoc.
    + apply V2_bedtimeEvent_type.
    + unfold V2.bedtimeEvent. case_ifs; reflexivity.
Qed.

(** Unless the single nap of the day is placed by the clock, the predicted
    naps follow each other by wake windows: the first starts one wake window
    (the interpolated one, reduced after a short last nap) after the end of
    the last logged nap, or after the wake time when the log is empty; each
    later one starts the band's maximum wake window (first variant) or the
    interpolated window plus 15 minutes, capped at the maximum (second
    variant) after the end of the one before. *)
Theorem predicted_naps_chained :
  (let std := V1.getStandardByMonth age in
   V1_byClock age std (Z.of_nat (List.length l)) = false ->
   exists front preds b,
     V1.events (V1.scheduleData age wakeTime l) = (front ++ preds ++ [b])%list
     /\ List.length front = S (List.length l)
     /\ List.length preds = remaining std l
     /\ chained (lastEnd wakeTime l) (V1_firstWindow age l) (maxWake std) preds)
  /\ (let std := V2.getStandardByMonth age in
      V2_byClock std (Z.of_nat (List.length l)) = false ->
      exists front preds b,
        V2.events (V2.scheduleData age wakeTime l) = (front ++ preds ++ [b])%list
        /\ List.length front = S (List.length l)
        /\ List.length preds = remaining std l
        /\ chained (lastEnd wakeTime l) (V2_firstWindow age l) (V2_laterWindow age) preds).
Proof.
  split; cbv zeta; intros Hwin.
  - destruct V1_plan_shape as (obs & preds & Hev & Hobs & Hlen & _ & Hchain).
    exists (V1.wakeEvent wakeTime :: obs), preds,
           (V1.bedtimeEvent age (V1.planNaps age wakeTime l)).
    split; [|split; [|split]]; auto.
    + rewrite V1_events_split, Hev. cbn [app]. now rewrite <- app_assoc.
    + cbn [List.length]. f_equal. symmetry. exact (Forall2_length Hobs).
  - destruct V2_plan_shape as (obs & preds & Hev & Hobs & Hlen & _ & Hchain).
    exists (V2.wakeEvent wakeTime :: obs), preds,
           (V2.bedtimeEvent age (V2.planNaps age wakeTime l)).
    split; [|split; [|split]]; auto.
    + rewrite V2_events_split, Hev. cbn [app]. now rewrite <- app_assoc.
    + cbn [List.length]. f_equal. symmetry. exact (Forall2_length Hobs).
Qed.

End PlanShape.

Lemma predicted_naps_chained_witness :
  (exists front preds b,
     V1.events (V1.scheduleData 2 "08:00" []) = (front ++ preds ++ [b])%list
     /\ List.length front = 1%nat
     /\ List.length preds = remaining (V1.getStandardByMonth 2) []
     /\ chained (lastEnd "08:00" []) (V1_firstWindow 2 [])
          (maxWake (V1.getStandardByMonth 2)) preds)
  /\ (exists front preds b,
        V2.events (V2.scheduleData 2 "08:00" []) = (front ++ preds ++ [b])%list
        /\ List.length front = 1%nat
        /\ List.length preds = remaining (V2.getStandardByMonth 2) []
        /\ chained (lastEnd "08:00" []) (V2_firstWindow 2 []) (V2_laterWindow 2) preds).
Proof.
  split.
  - apply (proj1 (predicted_naps_chained 2 "08:00" [])). reflexivity.
  - apply (proj2 (predicted_naps_chained 2 "08:00" [])). reflexivity.
Defined.

(** ** Where bedtime is counted from *)

Section BedtimeOrigin.

Variables (age : Z) (wakeTime : string) (l : list NapEntry).

Lemma currentIsLastEnd_echo (std : SleepStandard) (n : NapEntry) (st st' : Locals) :
  echoesOne std n st st' -> currentIsLastEnd st'.
Proof.
  intros (e & Hev & (_ & _ & Hend & _) & Hcur & _).
  exists (l_events st), e. split; [exact Hev|].
  unfold endOf. now rewrite Hend.
Qed.

Lemma currentIsLastEnd_predict (ds : list Z) (w : Z) (c : bool) (st st' : Locals) :
  predictsOne ds w c st st' -> currentIsLastEnd st'.
Proof.
  intros (e & Hev & _ & Hcur & _). now exists (l_events st), e.
Qed.

Lemma V1_plan_currentIsLastEnd : currentIsLastEnd (V1.planNaps age wakeTime l).
Proof.
  unfold V1.planNaps.
  apply forLoop_inv.
  { intros st i _. eapply currentIsLastEnd_predict.
    apply (V1_predictNap_one _ age st i). }
  match goal with |- currentIsLastEnd (V1.shortNapAdjust l ?s) =>
    destruct (V1_shortNapAdjust_next l s) as (Hev & Hcur & _);
    assert (Hst : currentIsLastEnd s)
  end.
  { apply forEach_inv.
    - intros st n i _. eapply currentIsLastEnd_echo. apply V1_observedNap_echoes.
    - exists [], (V1.wakeEvent wakeTime). split; reflexivity. }
  destruct Hst as (front & prev & Hev' & Hcur').
  exists front, prev. now rewrite Hev, Hcur.
Qed.

Lemma V2_plan_currentIsLastEnd : currentIsLastEnd (V2.planNaps age wakeTime l).
Proof.
  unfold V2.planNaps.
  apply forLoop_inv.
  { intros st i _. eapply currentIsLastEnd_predict.
    apply (V2_predictNap_one _ age _ st i). }
  match goal with |- currentIsLastEnd (V2.shortNapAdjust l ?s) =>
    destruct (V2_shortNapAdjust_next l s) as (Hev & Hcur & _);
    assert (Hst : currentIsLastEnd s)
  end.
  { apply forEach_inv.
    - intros st n i _. eapply currentIsLastEnd_echo. apply V2_observedNap_echoes.
    - exists [], (V2.wakeEvent wakeTime). split; reflexivity. }
  destruct Hst as (front & prev & Hev' & Hcur').
  exists front, prev. now rewrite Hev, Hcur.
Qed.

Lemma V1_finalWakeWindow_values (st : Locals) :
  In (V1.finalWakeWindow age st)
     [360; V1_baseBedtimeWindow age;
      round (inject_Z (V1_baseBedtimeWindow age) * (9 # 10))%Q].
Proof.
  unfold V1.finalWakeWindow, V1_baseBedtimeWindow. cbv zeta.
  destruct (V1.isStrategicCapping age st); [now left|].
  destruct (lastOf (l_events st)) as [e|]; [|right; now left].
  destruct (type e); try (right; now left).
  destruct (alertLevel e) as [[| |]|]; cbn [In]; auto.
Qed.

Lemma V1_bedtimeEvent_start (st : Locals) :
  evStart (V1.bedtimeEvent age st)
  = addMinutes (l_currentTime st) (V1.finalWakeWindow age st).
Proof.
  unfold V1.bedtimeEvent.
  destruct (V1.isStrategicCapping age st) eqn:Hcap.
  - cbn [evStart]. now rewrite (V1_capping_window age st Hcap).
  - case_ifs; reflexivity.
Qed.

(** The wake window before bed is counted from the end of the event just
    before the bedtime event: the end of the last nap, logged or predicted,
    or the wake time when there is no nap.  In the first variant the window
    is 360 minutes, the base window of the age, or 90 percent of it; in the
    second variant it is the window of the age, unless the event is moved to
    18:00. *)
Theorem bedtime_counts_from_last_end :
  (exists front prev b w,
     V1.events (V1.scheduleData age wakeTime l) = (front ++ [prev; b])%list
     /\ type b = bedtime
     /\ In w [360; V1_baseBedtimeWindow age;
              round (inject_Z (V1_baseBedtimeWindow age) * (9 # 10))%Q]
     /\ evStart b = addMinutes (endOf prev) w)
  /\ (exists front prev b,
        V2.events (V2.scheduleData age wakeTime l) = (front ++ [prev; b])%list
        /\ type b = bedtime
        /\ (evStart b = addMinutes (endOf prev) (V2.bedtimeWakeWindow age)
            \/ evStart b = "18:00")).
Proof.
  split.
  - destruct V1_plan_currentIsLastEnd as (front & prev & Hev & Hcur).
    exists front, prev, (V1.bedtimeEvent age (V1.planNaps age wakeTime l)),
           (V1.finalWakeWindow age (V1.planNaps age wakeTime l)).
    split; [|split; [|split]].
    + rewrite V1_events_split, Hev, <- app_assoc. reflexivity.
    + apply V1_bedtimeEvent_type.
    + apply V1_finalWakeWindow_values.
    + now rewrite V1_bedtimeEvent_start, Hcur.
  - destruct V2_plan_currentIsLastEnd as (front & prev & Hev & Hcur).
    exists front, prev, (V2.bedtimeEvent age (V2.planNaps age wakeTime l)).
    split; [|split].
    + rewrite V2_events_split, Hev, <- app_assoc. reflexivity.
    + apply V2_bedtimeEvent_type.
    + unfold V2.bedtimeEvent. rewrite Hcur.
      case_ifs; cbn [evStart]; auto.
Qed.

(** In the second variant the bedtime event never starts after 06:00 and
    before 18:00. *)
Theorem V2_bedtime_never_in_daytime :
  exists b,
    lastOf (V2.events (V2.scheduleData age wakeTime l)) = Some b
    /\ type b = bedtime
    /\ gtb (timeToMinutes (evStart b)) (Int 360)
       && ltb (timeToMinutes (evStart b)) (Int 1080) = false.
Proof.
  exists (V2.bedtimeEvent age (V2.planNaps age wakeTime l)).
  split; [rewrite V2_events_split; apply lastOf_snoc|].
  split; [apply V2_bedtimeEvent_type|].
  unfold V2.bedtimeEvent.
  set (t := timeToMinutes (addMinutes (l_currentTime (V2.planNaps age wakeTime l))
                             (V2.bedtimeWakeWindow age))).
  destruct (ltb t (Int 1080) && gtb t (Int 360)) eqn:Hday.
  - reflexivity.
  - destruct (gtb t (Int 1260)); cbn [evStart]; fold t;
      now rewrite andb_comm.
Qed.

End BedtimeOrigin.

(** ** The warnings of the first variant *)

Section WarningsV1.

Variables (age : Z) (wakeTime : string) (l : list NapEntry).

Lemma V1_observedNap_warnings (std : SleepStandard) (st : Locals) (n : NapEntry) (i : Z) :
  l_warnings (V1.observedNap std st n i) = l_warnings st.
Proof.
  unfold V1.observedNap.
  destruct (if ltb (duration n) (Int 45) then _ else _) as [reason alert].
  reflexivity.
Qed.

Lemma V1_predictNap_warnings (std : SleepStandard) (st : Locals) (i : Z) :
  l_napsPlanned (V1.predictNap std (V1.isToddlerAge age) st i) = l_napsPlanned st
  /\ exists pushed,
       l_warnings (V1.predictNap std (V1.isToddlerAge age) st i)
       = (l_warnings st ++ pushed)%list
       /\ incl pushed [V1.cappingWarning]
       /\ (V1_byClock age std (l_napsPlanned st) = false -> pushed = []).
Proof.
  split; [reflexivity|].
  unfold V1.predictNap. cbn [l_warnings].
  eexists. split; [reflexivity|]. split; [apply V1_placeNap_pushed|].
  intros Hwin. unfold V1.placeNap. unfold V1_byClock in Hwin. now rewrite Hwin.
Qed.

(** The warnings of the first variant are, in this order: the early-wake
    warning exactly when the wake time is before 06:00, the short-nap
    warning exactly when the last logged nap is shorter than 45 minutes, and
    then nothing but the capping warning, which only appears when the single
    nap of a toddler is placed by the clock. *)
Theorem V1_warnings_in_order :
  let std := V1.getStandardByMonth age in
  exists rest,
    V1.warnings (V1.scheduleData age wakeTime l)
    = ((if ltb (timeToMinutes wakeTime) (Int 360) then [V1.earlyWakeWarning] else [])
       ++ (if lastShort l then [V1.shortNapWarning] else [])
       ++ rest)%list
    /\ incl rest [V1.cappingWarning]
    /\ (V1_byClock age std (Z.of_nat (List.length l)) = false -> rest = []).
Proof.
  cbv zeta. unfold V1.scheduleData. cbn [V1.warnings]. unfold V1.planNaps.
  set (std := V1.getStandardByMonth age).
  set (early := if ltb (timeToMinutes wakeTime) (Int 360)
                then [V1.earlyWakeWarning] else []).
  set (st0 := {| l_events := [V1.wakeEvent wakeTime]; l_warnings := early;
                 l_currentTime := wakeTime; l_napsPlanned := 0;
                 l_nextWakeWindow := calculateInterpolatedWakeWindow age std |}).
  set (st1 := forEach (V1.observedNap std) st0 0 l).
  assert (Hw1 : l_warnings st1 = early).
  { unfold st1. apply (forEach_inv (fun st => l_warnings st = early)); [|reflexivity].
    intros st n i Hst. now rewrite V1_observedNap_warnings. }
  assert (Hp1 : l_napsPlanned st1 = Z.of_nat (List.length l)).
  { destruct (forEach_shape std (V1.observedNap std) (V1_observedNap_echoes std) l st0 0)
      as (_ & _ & _ & _ & Hplanned & _).
    fold st1 in Hplanned. rewrite Hplanned. reflexivity. }
  destruct (V1_shortNapAdjust_next l st1) as (_ & _ & Hp2 & _ & Hw2).
  change ((19 <=? age) && (age <=? 36)) with (V1.isToddlerAge age).
  set (K := Z.of_nat (List.length l)) in *.
  set (base := (early ++ if lastShort l then [V1.shortNapWarning] else [])%list).
  assert (Hloop :
    forall count i st,
      (l_napsPlanned st = K /\ exists rest, l_warnings st = (base ++ rest)%list
         /\ incl rest [V1.cappingWarning]
         /\ (V1_byClock age std K = false -> rest = [])) ->
      (fun st' => l_napsPlanned st' = K /\ exists rest, l_warnings st' = (base ++ rest)%list
         /\ incl rest [V1.cappingWarning]
         /\ (V1_byClock age std K = false -> rest = []))
        (forLoop (V1.predictNap std (V1.isToddlerAge age)) count i st)).
  { intros count i st Hst. apply forLoop_inv; [|exact Hst].
    clear. intros st i (Hk & rest & Hw & Hincl & Hnone).
    destruct (V1_predictNap_warnings std st i) as (Hk' & pushed & Hw' & Hincl' & Hnone').
    split; [now rewrite Hk'|].
    exists (rest ++ pushed)%list. split; [|split].
    - now rewrite Hw', Hw, app_assoc.
    - now apply incl_app.
    - intros Hwin. rewrite (Hnone Hwin). rewrite Hk in Hnone'. now rewrite (Hnone' Hwin). }
  destruct (Hloop (Z.to_nat (Z.max 0 (naps std - l_napsPlanned st1))) 0
              (V1.shortNapAdjust l st1)) as (_ & rest & Hw & Hincl & Hnone).
  { split; [now rewrite Hp2|]. exists []. rewrite app_nil_r.
    split; [now rewrite Hw2, Hw1 | split; [apply incl_nil_l | reflexivity]]. }
  exists rest. split; [|split; assumption].
  rewrite Hw. unfold base. now rewrite <- app_assoc.
Qed.

End WarningsV1.

Lemma V1_warnings_in_order_witness :
  exists rest,
    V1.warnings (V1.scheduleData 5 "05:30" shortNapLog)
    = ((if ltb (timeToMinutes "05:30") (Int 360) then [V1.earlyWakeWarning] else [])
       ++ (if lastShort shortNapLog then [V1.shortNapWarning] else [])
       ++ rest)%list
    /\ incl rest [V1.cappingWarning]
    /\ rest = [].
Proof.
  destruct (V1_warnings_in_order 5 "05:30" shortNapLog) as (rest & Hw & Hincl & Hnone).
  exists rest. split; [exact Hw|]. split; [exact Hincl|].
  apply Hnone. reflexivity.
Defined.

(** ** Toddlers with an empty log *)

Section Toddlers.

Variables (age : Z) (wakeTime : string).
Hypothesis Hage : 19 <= age <= 36.

Lemma V1_toddler_band : V1.getStandardByMonth age = V1.SLEEP_STANDARDS V1.k19_36.
Proof. unfold V1.getStandardByMonth. case_leb. reflexivity. Qed.

Lemma V2_toddler_band : V2.getStandardByMonth age = V2.SLEEP_STANDARDS V2.k19_36.
Proof. unfold V2.getStandardByMonth. case_leb. reflexivity. Qed.

Lemma toddler_age : V1.isToddlerAge age = true.
Proof. unfold V1.isToddlerAge. apply andb_true_iff. split; apply Z.leb_le; lia. Qed.

(** In the second variant the day of a toddler (19 to 36 months) with an
    empty log does not depend on the wake time: the nap is from 12:30 to
    14:00 without a severity and bedtime is at 19:30 with severity normal.
    The only possible warning is the early-wake warning. *)
Theorem V2_toddler_day_by_the_clock :
  times (V2.events (V2.scheduleData age wakeTime []))
  = [(wake, wakeTime, None); (nap, "12:30", Some "14:00"); (bedtime, "19:30", None)]
  /\ map alertLevel (V2.events (V2.scheduleData age wakeTime []))
     = [None; None; Some normal]
  /\ V2.warnings (V2.scheduleData age wakeTime [])
     = if ltb (timeToMinutes wakeTime) (Int 360) then [V2.earlyWakeWarning] else [].
Proof.
  unfold V2.scheduleData. cbn [V2.events V2.warnings].
  replace (V2.edgeCaseC age []) with (@nil string) by reflexivity.
  rewrite app_nil_r.
  unfold V2.planNaps, V2.bedtimeEvent, V2.bedtimeWakeWindow.
  rewrite V2_toddler_band.
  generalize (calculateInterpolatedWakeWindow age (V2.SLEEP_STANDARDS V2.k19_36)).
  intros specific.
  destruct (ltb (timeToMinutes wakeTime) (Int 360)); vm_compute; repeat split.
Qed.

End Toddlers.

Lemma V2_toddler_day_by_the_clock_witness :
  times (V2.events (V2.scheduleData 30 "09:10" []))
  = [(wake, "09:10", None); (nap, "12:30", Some "14:00"); (bedtime, "19:30", None)]
  /\ map alertLevel (V2.events (V2.scheduleData 30 "09:10" []))
     = [None; None; Some normal]
  /\ V2.warnings (V2.scheduleData 30 "09:10" [])
     = if ltb (timeToMinutes "09:10") (Int 360) then [V2.earlyWakeWarning] else [].
Proof. apply (V2_toddler_day_by_the_clock 30 "09:10"). lia. Defined.

Section ToddlersV1.

Variables (age : Z) (wakeTime : string) (w : Z).
Hypothesis Hage : 19 <= age <= 36.
Hypothesis Hwake : timeToMinutes wakeTime = Int w.

Lemma V1_toddler_plan :
  V1.planNaps age wakeTime []
  = V1.predictNap (V1.SLEEP_STANDARDS V1.k19_36) true
      {| l_events := [V1.wakeEvent wakeTime];
         l_warnings := if w <? 360 then [V1.earlyWakeWarning] else [];
         l_currentTime := wakeTime;
         l_napsPlanned := 0;
         l_nextWakeWindow :=
           calculateInterpolatedWakeWindow age (V1.SLEEP_STANDARDS V1.k19_36) |} 0.
Proof.
  unfold V1.planNaps. rewrite (V1_toddler_band age Hage).
  change ((19 <=? age) && (age <=? 36)) with (V1.isToddlerAge age).
  rewrite (toddler_age age Hage), Hwake. reflexivity.
Qed.

Lemma V1_toddler_note (st : Locals) :
  l_napsPlanned st = 0 -> l_currentTime st = wakeTime ->
  let note := V1.placeNap (V1.SLEEP_STANDARDS V1.k19_36) true st 1 in
  (w < 360 ->
   V1.predictedNapStart note = minutesToTime (Int (w + 360))
   /\ V1.predictedDuration note = 75
   /\ V1.noteTitle note = "Strategischer Mittagsschlaf (Capping)"
   /\ V1.noteAlert note = warning
   /\ V1.notePushed note = [V1.cappingWarning])
  /\ (360 <= w ->
      V1.predictedNapStart note
      = minutesToTime (Int (Z.min (Z.max (w + 300) 750) (w + 360)))
      /\ V1.predictedDuration note = 90
      /\ V1.noteTitle note = "Vorschlag: Nap 1"
      /\ V1.notePushed note = []).
Proof.
  intros Hplanned Hcur. cbv zeta. unfold V1.placeNap.
  rewrite Hplanned, Hcur, Hwake.
  cbn [naps maxWake minWake V1.SLEEP_STANDARDS andb Z.eqb Pos.eqb].
  change (timeToMinutes "12:30") with (Int 750).
  cbn [add sub ltb max min].
  destruct (Z.ltb_spec (w + 360) (750 - 30)); split; intros Hw; try lia;
    cbn [V1.predictedNapStart V1.predictedDuration V1.noteTitle V1.noteAlert V1.notePushed];
    repeat split.
Qed.

(** In the first variant the single nap of a toddler (19 to 36 months) with
    an empty log is capped exactly when the wake time is before 06:00: it
    then starts 360 minutes after the wake time, lasts 75 minutes, has
    severity warning, the warnings are the early-wake and the capping
    warning, and the target bedtime is 360 minutes after the end of the nap.
    From 06:00 on the nap starts at the later of 12:30 and 300 minutes after
    the wake time, but 360 minutes after it at the latest, lasts 90 minutes,
    and there is no warning. *)
Theorem V1_toddler_nap_placement :
  exists n b,
    V1.events (V1.scheduleData age wakeTime []) = [V1.wakeEvent wakeTime; n; b]
    /\ type n = nap /\ type b = bedtime
    /\ (w < 360 ->
        title n = "Strategischer Mittagsschlaf (Capping)"
        /\ evStart n = minutesToTime (Int (w + 360))
        /\ evEnd n = Some (addMinutes (evStart n) 75)
        /\ alertLevel n = Some warning
        /\ V1.warnings (V1.scheduleData age wakeTime [])
           = [V1.earlyWakeWarning; V1.cappingWarning]
        /\ title b = "Ziel-Bettzeit"
        /\ evStart b = addMinutes (endOf n) 360
        /\ alertLevel b = Some warning)
    /\ (360 <= w ->
        title n = "Vorschlag: Nap 1"
        /\ evStart n = minutesToTime (Int (Z.min (Z.max (w + 300) 750) (w + 360)))
        /\ evEnd n = Some (addMinutes (evStart n) 90)
        /\ V1.warnings (V1.scheduleData age wakeTime []) = []).
Proof.
  unfold V1.scheduleData. cbn [V1.events V1.warnings].
  rewrite V1_toddler_plan.
  set (st0 := {| l_events := [V1.wakeEvent wakeTime]; l_warnings := _;
                 l_currentTime := wakeTime; l_napsPlanned := 0;
                 l_nextWakeWindow := _ |}).
  destruct (V1_toddler_note st0 eq_refl eq_refl) as [Hcap Hclock].
  set (st := V1.predictNap (V1.SLEEP_STANDARDS V1.k19_36) true st0 0).
  unfold V1.predictNap in st.
  change (l_napsPlanned st0 + 0 + 1) with 1 in st.
  set (note := V1.placeNap (V1.SLEEP_STANDARDS V1.k19_36) true st0 1) in *.
  cbv zeta in Hcap, Hclock.
  eexists. exists (V1.bedtimeEvent age st).
  split; [reflexivity|]. split; [reflexivity|]. split; [apply V1_bedtimeEvent_type|].
  cbn [title evStart evEnd alertLevel l_warnings st].
  split; intros Hw.
  - destruct (Hcap Hw) as (Hs & Hd & Ht & Ha & Hp).
    assert (Hsc : V1.isStrategicCapping age st = true).
    { unfold V1.isStrategicCapping. unfold st at 1. cbn [l_events].
      rewrite lastOf_snoc. cbn [type title]. rewrite Ht, (toddler_age age Hage).
      reflexivity. }
    unfold V1.bedtimeEvent. rewrite Hsc. cbn [title evStart alertLevel].
    unfold endOf. cbn [evEnd l_currentTime st].
    rewrite Ht, Hs, Hd, Ha, Hp. unfold st0. cbn [l_warnings].
    rewrite (proj2 (Z.ltb_lt w 360) Hw).
    repeat split. case_ifs; reflexivity.
  - destruct (Hclock Hw) as (Hs & Hd & Ht & Hp).
    rewrite Ht, Hs, Hd, Hp. unfold st0. cbn [l_warnings].
    rewrite (proj2 (Z.ltb_ge w 360) Hw).
    repeat split.
Qed.

End ToddlersV1.

Lemma V1_toddler_nap_placement_witness :
  exists n b,
    V1.events (V1.scheduleData 24 "07:00" []) = [V1.wakeEvent "07:00"; n; b]
    /\ type n = nap /\ type b = bedtime
    /\ title n = "Vorschlag: Nap 1"
    /\ evStart n = minutesToTime (Int (Z.min (Z.max (420 + 300) 750) (420 + 360)))
    /\ evEnd n = Some (addMinutes (evStart n) 90)
    /\ V1.warnings (V1.scheduleData 24 "07:00" []) = [].
Proof.
  destruct (V1_toddler_nap_placement 24 "07:00" 420 ltac:(lia) eq_refl)
    as (n & b & Hev & Hn & Hb & _ & Hclock).
  exists n, b. split; [exact Hev|]. split; [exact Hn|]. split; [exact Hb|].
  apply Hclock. lia.
Defined.

(** ** An unreadable wake time *)

Section UnreadableWake.

Variables (age : Z) (wakeTime : string).
Hypothesis Hwake : timeToMinutes wakeTime = NaN.






End UnreadableWake.


(** ** The wake window before bed *)

(** For an age from 0 to 60 months the wake window before bed, before any
    adjustment for the last nap, differs from the band's bedtime window by
    30 minutes at most in the first variant and by 15 minutes at most in the
    second; in clock mode it is the band's window itself. *)
Theorem bedtime_window_near_band (month : Z) :
  0 <= month <= 60 ->
  (let a := V1.getStandardByMonth month in
   Z.abs (V1_baseBedtimeWindow month - bedtimeWindow a) <= 30
   /\ (mode a = clock -> V1_baseBedtimeWindow month = bedtimeWindow a))
  /\ (let b := V2.getStandardByMonth month in
      Z.abs (V2.bedtimeWakeWindow month - bedtimeWindow b) <= 15
      /\ (mode b = clock -> V2.bedtimeWakeWindow month = bedtimeWindow b)).
Proof.
  intros Hm.
  assert (H : bedtimeWindowNear month = true).
  { apply (forallb_interval bedtimeWindowNear 0 61); [vm_compute; reflexivity | lia]. }
  unfold bedtimeWindowNear in H. cbv zeta in *.
  apply andb_true_iff in H as [H H4]. apply andb_true_iff in H as [H H3].
  apply andb_true_iff in H as [H1 H2].
  apply Z.leb_le in H1, H2.
  split; (split; [assumption|]); intros Hmode.
  - rewrite Hmode in H3. now apply Z.eqb_eq.
  - rewrite Hmode in H4. now apply Z.eqb_eq.
Qed.

Lemma bedtime_window_near_band_witness :
  (let a := V1.getStandardByMonth 24 in
   Z.abs (V1_baseBedtimeWindow 24 - bedtimeWindow a) <= 30
   /\ (mode a = clock -> V1_baseBedtimeWindow 24 = bedtimeWindow a))
  /\ (let b := V2.getStandardByMonth 24 in
      Z.abs (V2.bedtimeWakeWindow 24 - bedtimeWindow b) <= 15
      /\ (mode b = clock -> V2.bedtimeWakeWindow 24 = bedtimeWindow b)).
Proof. apply (bedtime_window_near_band 24). lia. Defined.
